(** * Mars Rover Dashboard: the state-driven rendering loop of [client.js]

    A shallow embedding of [src/public/client.js]: the values the client
    manipulates (Immutable.js collections built by [Immutable.fromJS] and
    [Immutable.Map]), the deep merge behind [updateApplicationState], the
    markup generators, and the update coordinator with its in-flight
    requests.  The first part holds the definitions, the second part the
    properties, each of which names the claim (C1 to C10) it settles.

    Conventions.
    - A JavaScript exception ([TypeError]: reading a property of
      [undefined], calling something that is not a function) is [None] in
      the option monad.
    - An [Immutable.Map] is an association list in iteration order, with
      [lookup_key] reading the first binding of a key and [set_key]
      replacing it in place (or appending a new key); [unique_keys] is the
      invariant every value built by the library satisfies.  Iteration
      order is insertion order, as for the maps of at most eight keys that
      the dashboard handles; keys are property names, not array indices.
    - [Immutable.fromJS] is the identity: a parsed JSON document and its
      deep conversion are the same [value].
    - Strings are byte strings (UTF-8); numbers are the integers that print
      in plain decimal notation.
    - Immutable.js is a dependency of the client, not part of it; it is
      modelled from its documented behaviour (version 4): [get], [set],
      [mergeDeep], [map], [join] and [toString]. *)

From Stdlib Require Import ZArith Ascii String List Lia DecimalString.
From stdpp Require Import base option list strings.

Set Warnings "-register-all".

(** ** Values *)

Inductive value : Type :=
| VUndef
| VNull
| VBool (b : bool)
| VNum (n : Z)
| VStr (s : string)
| VMap (kvs : list (string * value))
| VList (xs : list value).

Definition isMap (v : value) : bool :=
  match v with VMap _ => true | _ => false end.

Definition isList (v : value) : bool :=
  match v with VList _ => true | _ => false end.

(** ** Immutable.Map as an ordered association list *)

Fixpoint lookup_key (k : string) (m : list (string * value)) : option value :=
  match m with
  | [] => None
  | (k', v) :: m' => if String.eqb k k' then Some v else lookup_key k m'
  end.

(** [Map.set]: an existing key keeps its position, a new key goes last. *)
Fixpoint set_key (k : string) (v : value) (m : list (string * value))
  : list (string * value) :=
  match m with
  | [] => [(k, v)]
  | (k', v') :: m' =>
      if String.eqb k k' then (k, v) :: m' else (k', v') :: set_key k v m'
  end.

Fixpoint distinct (ks : list string) : bool :=
  match ks with
  | [] => true
  | k :: ks' => negb (existsb (String.eqb k) ks') && distinct ks'
  end.

(** The invariant of library-built values: no map binds a key twice. *)
Fixpoint unique_keys (v : value) : bool :=
  match v with
  | VMap kvs =>
      distinct (map fst kvs) && forallb (fun kv => unique_keys (snd kv)) kvs
  | VList xs => forallb unique_keys xs
  | _ => true
  end.

(** ** [mergeDeep]

    [deepMerger oldValue newValue] is the merger that [mergeDeep] applies at
    a key bound on both sides: two keyed collections are merged entry by
    entry, two indexed collections are concatenated, and in every other
    case the new value replaces the old one.  The inner loop is
    [mergeIntoKeyedWith]: every entry of the patch updates the collection,
    through the merger when the key is already bound. *)
Fixpoint deepMerger (oldValue newValue : value) {struct newValue} : value :=
  match newValue with
  | VMap p =>
      match oldValue with
      | VMap c =>
          VMap ((fix mergeInto (p c : list (string * value)) {struct p} :=
                   match p with
                   | [] => c
                   | (k, v) :: p' =>
                       mergeInto p'
                         (match lookup_key k c with
                          | None => set_key k v c
                          | Some old => set_key k (deepMerger old v) c
                          end)
                   end) p c)
      | _ => newValue
      end
  | VList ys =>
      match oldValue with
      | VList xs => VList (xs ++ ys)
      | _ => newValue
      end
  | _ => newValue
  end.

(** One step of the loop, and the loop itself, named for the proofs. *)
Definition mergeEntry (c : list (string * value)) (k : string) (v : value)
  : list (string * value) :=
  match lookup_key k c with
  | None => set_key k v c
  | Some old => set_key k (deepMerger old v) c
  end.

Fixpoint mergeIntoKeyedWith (p c : list (string * value))
  : list (string * value) :=
  match p with
  | [] => c
  | (k, v) :: p' => mergeIntoKeyedWith p' (mergeEntry c k v)
  end.

(** [state.mergeDeep(newState)] as the coordinator calls it: the receiver is
    a map and the patch is keyed (an [Immutable.Map] or a plain object). *)
Definition mergeDeep (state newState : value) : option value :=
  match state, newState with
  | VMap _, VMap _ => Some (deepMerger state newState)
  | _, _ => None
  end.

(** ** The deep merge of the specification

    "For each key present in the patch, recursively merge into the current
    value if both sides are mapping-typed, otherwise overwrite.  Keys absent
    from the patch are preserved unchanged."  The relation is stated on
    lookups, so it does not depend on the order of the keys.  With
    [concat_seqs = false] it is the sentence as written; with
    [concat_seqs = true] two sequences met at the same key are concatenated
    instead of overwritten. *)
Inductive deep_merge (concat_seqs : bool) : value -> value -> value -> Prop :=
| dm_mappings c p r :
    (forall k, deep_merge_at concat_seqs
                 (lookup_key k c) (lookup_key k p) (lookup_key k r)) ->
    deep_merge concat_seqs (VMap c) (VMap p) (VMap r)
| dm_sequences xs ys :
    concat_seqs = true ->
    deep_merge concat_seqs (VList xs) (VList ys) (VList (xs ++ ys))
| dm_overwrite cur pat :
    isMap cur && isMap pat = false ->
    concat_seqs && isList cur && isList pat = false ->
    deep_merge concat_seqs cur pat pat
with deep_merge_at (concat_seqs : bool)
  : option value -> option value -> option value -> Prop :=
| dma_absent cur : deep_merge_at concat_seqs cur None cur
| dma_fresh pat : deep_merge_at concat_seqs None (Some pat) (Some pat)
| dma_both cur pat r :
    deep_merge concat_seqs cur pat r ->
    deep_merge_at concat_seqs (Some cur) (Some pat) (Some r).

(** Where no key carries a sequence on both sides, concatenation never
    happens and the two readings of the deep merge agree. *)
Fixpoint no_seq_clash (cur pat : value) {struct pat} : bool :=
  match pat with
  | VList _ => negb (isList cur)
  | VMap p =>
      match cur with
      | VMap c =>
          forallb (fun kv => match lookup_key (fst kv) c with
                             | Some old => no_seq_clash old (snd kv)
                             | None => true
                             end) p
      | _ => true
      end
  | _ => true
  end.


(** ** JavaScript primitives *)

(** [ToBoolean]: what [cond ? a : b], [a || b] and [a && b] test. *)
Definition truthy (v : value) : bool :=
  match v with
  | VUndef | VNull => false
  | VBool b => b
  | VNum n => negb (n =? 0)%Z
  | VStr s => negb (String.eqb s "")
  | VMap _ | VList _ => true
  end.

(** [a || b] *)
Definition js_or (a b : value) : value := if truthy a then a else b.

(** [a === b].  Two collections are equal only when they are the same
    object; the collections compared by the client come from separately
    parsed inline arguments, hence are never identical. *)
Definition strict_eq (a b : value) : bool :=
  match a, b with
  | VUndef, VUndef | VNull, VNull => true
  | VBool x, VBool y => Bool.eqb x y
  | VNum x, VNum y => (x =? y)%Z
  | VStr x, VStr y => String.eqb x y
  | _, _ => false
  end.

Definition dquote : ascii := "034"%char.
Definition backslash : ascii := "092"%char.
Definition nl : string := String "010"%char "".

Definition decimal (n : Z) : string := NilZero.string_of_int (Z.to_int n).

Definition hex_digit (n : nat) : ascii :=
  nth n ["0"; "1"; "2"; "3"; "4"; "5"; "6"; "7"; "8"; "9";
         "a"; "b"; "c"; "d"; "e"; "f"]%char "0"%char.

(** [QuoteJSONString]: the escapes [JSON.stringify] applies to a string. *)
Definition escape_char (c : ascii) : string :=
  let n := nat_of_ascii c in
  if (n =? 34)%nat then String backslash (String dquote "")
  else if (n =? 92)%nat then String backslash (String backslash "")
  else if (n =? 8)%nat then String backslash "b"
  else if (n =? 9)%nat then String backslash "t"
  else if (n =? 10)%nat then String backslash "n"
  else if (n =? 12)%nat then String backslash "f"
  else if (n =? 13)%nat then String backslash "r"
  else if (n <? 32)%nat then
    String backslash
      ("u00" +:+ String (hex_digit (n / 16)) (String (hex_digit (n mod 16)) ""))
  else String c "".

Fixpoint escape (s : string) : string :=
  match s with
  | EmptyString => ""
  | String c s' => escape_char c +:+ escape s'
  end.

Definition quoteJSONString (s : string) : string :=
  String dquote (escape s +:+ String dquote "").

(** [JSON.stringify] of a value other than [undefined].  A collection is
    first turned into a plain object or array ([toJSON]); a member whose
    value is [undefined] is left out of an object and printed as [null] in
    an array. *)
Fixpoint stringify (v : value) : string :=
  match v with
  | VUndef | VNull => "null"
  | VBool b => if b then "true" else "false"
  | VNum n => decimal n
  | VStr s => quoteJSONString s
  | VMap kvs =>
      "{" +:+
      String.concat ","
        ((fix members (kvs : list (string * value)) : list string :=
            match kvs with
            | [] => []
            | (k, v) :: rest =>
                match v with
                | VUndef => members rest
                | _ => (quoteJSONString k +:+ ":" +:+ stringify v) :: members rest
                end
            end) kvs)
      +:+ "}"
  | VList xs => "[" +:+ String.concat "," (map stringify xs) +:+ "]"
  end.

(** [JSON.stringify(obj)]; [None] stands for the result [undefined]. *)
Definition JSON_stringify (obj : value) : option string :=
  match obj with
  | VUndef => None
  | _ => Some (stringify obj)
  end.

(** Immutable's [quoteString]: a string member is printed as JSON, any
    other member by [String], passed here as [printed]. *)
Definition quoteString (v : value) (printed : string) : string :=
  match v with
  | VStr s => quoteJSONString s
  | _ => printed
  end.

(** [String(v)], the conversion of a template hole [${v}].  Collections
    print through Immutable's [toString]. *)
Fixpoint toString (v : value) : string :=
  match v with
  | VUndef => "undefined"
  | VNull => "null"
  | VBool b => if b then "true" else "false"
  | VNum n => decimal n
  | VStr s => s
  | VMap kvs =>
      match kvs with
      | [] => "Map {}"
      | _ =>
          "Map { " +:+
          String.concat ", "
            (map (fun kv =>
                    quoteJSONString (fst kv) +:+ ": " +:+
                    quoteString (snd kv) (toString (snd kv))) kvs)
          +:+ " }"
      end
  | VList xs =>
      match xs with
      | [] => "List []"
      | _ =>
          "List [ " +:+
          String.concat ", "
            (map (fun x => quoteString x (toString x)) xs)
          +:+ " ]"
      end
  end.

Fixpoint replace_char (from to : ascii) (s : string) : string :=
  match s with
  | EmptyString => ""
  | String c s' =>
      String (if Ascii.eqb c from then to else c) (replace_char from to s')
  end.

(** ** Immutable collections as the client uses them *)

(** The value a map answers for a key: [undefined] when unbound. *)
Definition field (key : string) (m : list (string * value)) : value :=
  default VUndef (lookup_key key m).

(** [coll.get(key)] for the property names the client reads (none of them
    is an index, so a list answers [undefined]).  A receiver without a
    [get] method raises. *)
Definition get (coll : value) (key : string) : option value :=
  match coll with
  | VMap m => Some (field key m)
  | VList _ => Some VUndef
  | _ => None
  end.

(** [x?.get(key)] *)
Definition get_optional (x : value) (key : string) : option value :=
  match x with
  | VUndef | VNull => Some VUndef
  | _ => get x key
  end.

(** [coll.set(key, v)]; a list ignores a key that is not an index. *)
Definition set (coll : value) (key : string) (v : value) : option value :=
  match coll with
  | VMap m => Some (VMap (set_key key v m))
  | VList _ => Some coll
  | _ => None
  end.

(** The values [coll.map(f)] visits, in order. *)
Definition elements (coll : value) : option (list value) :=
  match coll with
  | VList xs => Some xs
  | VMap m => Some (map snd m)
  | _ => None
  end.

(** [coll.map(f).join("")] for an [f] that returns strings. *)
Definition map_join (f : value -> option string) (coll : value)
  : option string :=
  xs ← elements coll; cards ← mapM f xs; Some (String.concat "" cards).

(** [data.key] on a parsed JSON response. *)
Definition property (data : value) (key : string) : option value :=
  match data with
  | VUndef | VNull => None
  | VMap m => Some (field key m)
  | _ => Some VUndef
  end.

(** ** Markup

    The markup literals of the client are written here with an apostrophe
    wherever the source has a double quote (the templates contain no
    apostrophe of their own); [markup] puts the double quotes back.
    [lines] joins the lines of a literal with newlines. *)
Definition lines (ls : list string) : string := String.concat nl ls.

Definition markup (ls : list string) : string :=
  replace_char "'"%char dquote (lines ls).

(** [convertToJSON] *)
Definition convertToJSON (obj : value) : option string :=
  json ← JSON_stringify obj; Some (replace_char dquote "'"%char json).

(** [createGreeting] *)
Definition createGreeting (name : value) : string :=
  if truthy name
  then markup ["<h2 class='display-4'>Welcome, "] +:+ toString name
         +:+ markup ["!</h2>"]
  else markup ["<h2 class='display-4'>Hello!</h2>"].

(** [showLoadingSpinner] *)
Definition showLoadingSpinner : string :=
  markup [
    "";
    "  <div class='d-flex justify-content-center my-4'>";
    "    <div class='spinner-border text-primary' style='width: 3rem; height: 3rem;' role='status'>";
    "      <span class='visually-hidden'>Loading...</span>";
    "    </div>";
    "  </div>";
    "" ].

(** The two literals of [createPhotoCard], as functions of their holes. *)
Definition photoDescription (camera date rover : string) : string :=
  markup [ ""; "    Captured by the " ] +:+ camera
  +:+ markup [ " camera on " ] +:+ date
  +:+ markup [ ".<br /><br />";
               "    This image shows the Martian landscape as seen by the " ]
  +:+ rover
  +:+ markup [ " rover."; "  " ].

Definition photoCardMarkup (url camera rover description : string) : string :=
  markup [ "";
           "    <div class='col mb-4'>";
           "      <div class='card border-secondary shadow-sm'>";
           "        <img src='" ] +:+ url
  +:+ markup [ "' class='card-img-top' alt='" ] +:+ camera
  +:+ markup [ "' style='object-fit: cover; height: 200px; width: 100%;'>";
               "        <div class='card-body'>";
               "          <h5 class='card-title'>" ] +:+ rover
  +:+ markup [ " - " ] +:+ camera
  +:+ markup [ "</h5>";
               "          <p class='card-text'>" ] +:+ description
  +:+ markup [ "</p>";
               "        </div>";
               "      </div>";
               "    </div>";
               "  " ].

(** [photo.get("camera")?.get("full_name")] and
    [photo.get("rover")?.get("name")] *)
Definition photoCameraName (photo : value) : option value :=
  camera ← get photo "camera"; get_optional camera "full_name".

Definition photoRoverName (photo : value) : option value :=
  rover ← get photo "rover"; get_optional rover "name".

(** [createPhotoCard] *)
Definition createPhotoCard (photo : value) : option string :=
  url ← get photo "img_src";
  full_name ← photoCameraName photo;
  let camera := js_or full_name (VStr "Unknown Camera") in
  earth_date ← get photo "earth_date";
  let date := js_or earth_date (VStr "Unknown Date") in
  name ← photoRoverName photo;
  let rover := js_or name (VStr "Unknown Rover") in
  let description :=
    photoDescription (toString camera) (toString date) (toString rover) in
  Some (photoCardMarkup (toString url) (toString camera) (toString rover)
          description).

Definition roverCardMarkup
  (name launch landing status stateJson roverJson label : string) : string :=
  markup [ "";
           "    <div class='col mb-4'>";
           "      <div class='card border-primary shadow-sm'>";
           "        <div class='card-body'>";
           "          <h5 class='card-title'>" ] +:+ name
  +:+ markup [ "</h5>";
               "          <p class='card-text'>";
               "            <strong>Launch Date:</strong> " ] +:+ launch
  +:+ markup [ "<br />";
               "            <strong>Landing Date:</strong> " ] +:+ landing
  +:+ markup [ "<br />";
               "            <strong>Status:</strong> " ] +:+ status
  +:+ markup [ "";
               "          </p>";
               "          <button class='btn btn-primary' onclick='showRoverDetails(" ]
  +:+ stateJson
  +:+ markup [ ", " ] +:+ roverJson
  +:+ markup [ ")'>";
               "            " ] +:+ label
  +:+ markup [ "";
               "          </button>";
               "        </div>";
               "      </div>";
               "    </div>";
               "  " ].

Definition loadingLabel : string :=
  markup [ "<span class='spinner-border spinner-border-sm' role='status' aria-hidden='true'></span> Loading..." ].

(** [createRoverCard] *)
Definition createRoverCard (state rover : value) : option string :=
  launch ← get rover "launch_date";
  landing ← get rover "landing_date";
  status ← get rover "status";
  selectedRover ← get state "selectedRover";
  isLoading ← (if isMap selectedRover
               then get selectedRover "loading" else Some (VBool false));
  selectedName ← (if isMap selectedRover
                  then get selectedRover "name" else Some VNull);
  name ← get rover "name";
  stateJson ← convertToJSON state;
  roverJson ← convertToJSON rover;
  Some (roverCardMarkup (toString name) (toString launch) (toString landing)
          (toString status) stateJson roverJson
          (if truthy isLoading && strict_eq selectedName name
           then loadingLabel else "View Latest Images")).

(** The literal of [generateAppContent], as a function of its holes. *)
Definition appMarkup
  (stateJson label themeClass greeting roverCardsHtml galleryHtml : string)
  : string :=
  markup [ "";
           "    <header class='bg-dark text-light py-4 shadow-sm'>";
           "      <div class='container d-flex justify-content-between align-items-center'>";
           "        <h1 class='text-center'>Mars Rover Dashboard</h1>";
           "        <button class='btn btn-outline-light' onclick='toggleTheme(" ]
  +:+ stateJson
  +:+ markup [ ")'>";
               "          " ] +:+ label
  +:+ markup [ "";
               "        </button>";
               "      </div>";
               "    </header>";
               "    <main class='container py-5 " ] +:+ themeClass
  +:+ markup [ "'>";
               "      <div class='alert alert-primary'>";
               "        " ] +:+ greeting
  +:+ markup [ "";
               "        <p class='lead'>Explore Mars rover images and information from the NASA API.</p>";
               "      </div>";
               "      <div class='row row-cols-1 row-cols-md-4 g-2 justify-content-center'>";
               "        " ] +:+ roverCardsHtml
  +:+ markup [ "";
               "      </div>";
               "      <div class='row row-cols-1 row-cols-md-3 g-4 mt-4'>";
               "        " ] +:+ galleryHtml
  +:+ markup [ "";
               "      </div>";
               "      <button id='scrollToTopBtn' title='Go to top' onclick='scrollToTop()'><i class='fa-solid fa-arrow-up'></i></button>";
               "    </main>";
               "    <footer class='py-3 text-center " ] +:+ themeClass
  +:+ markup [ "'>";
               "      <div class='container'>";
               "        <p class='mb-0'>Â© 2024 Mars Rover Dashboard</p>";
               "      </div>";
               "    </footer>";
               "  " ].


(** [roverCardsHtml]: the rover section. *)
Definition roverCardsHtml (state rovers : value) : option string :=
  if truthy rovers
  then map_join (createRoverCard state) rovers
  else Some showLoadingSpinner.

(** [galleryHtml]: the gallery section, a string or [undefined] (the
    optional chain [?.map(...).join("")] stops at an absent [photos]). *)
Definition galleryHtml (gallery : value) : option value :=
  if truthy gallery
  then
    photos ← get gallery "photos";
    match photos with
    | VUndef | VNull => Some VUndef
    | _ => VStr <$> map_join createPhotoCard photos
    end
  else Some (VStr "").

(** [generateAppContent] *)
Definition generateAppContent (state : value) : option string :=
  user ← get state "user";
  rovers ← get state "rovers";
  gallery ← get state "selectedRoverGallery";
  darkMode ← get state "isDarkMode";
  roverCards ← roverCardsHtml state rovers;
  galleryCards ← galleryHtml gallery;
  let themeClass := if truthy darkMode then "dark-mode" else "light-mode" in
  stateJson ← convertToJSON state;
  name ← get user "name";
  Some (appMarkup stateJson
          (if truthy darkMode then "Light Mode" else "Dark Mode")
          themeClass (createGreeting name) roverCards (toString galleryCards)).

(** ** The update coordinator

    The page is the root element's markup, the theme attribute of the
    document element, and the fetches that are in flight.  A fetch is
    recorded with what its callback closes over: the state snapshot that
    was current when the fetch was issued.  [rendered] remembers the
    snapshot of the last render; it is the state that the inline actions of
    the markup carry, hence the state the next user action starts from. *)

Inductive request : Type :=
| RoverList (state : value)
| RoverPhotos (roverName maxDate : value) (state : value).

Record page : Type := Page {
  innerHTML : string;
  bsTheme : option string;
  rendered : option value;
  pending : list request
}.

(** [renderUI]: nothing is assigned when the generator raises. *)
Definition renderUI (element : page) (state : value) : option page :=
  html ← generateAppContent state;
  Some (Page html (bsTheme element) (Some state) (pending element)).

(** [updateApplicationState]: merge, render, then the callback.  A raised
    exception rejects the promise of the [async] function and stops it
    there; what was done before stays done. *)
Definition updateApplicationState (element : page) (state newState : value)
  (callback : option (page -> value -> page)) : page :=
  match mergeDeep state newState with
  | None => element
  | Some updatedState =>
      match renderUI element updatedState with
      | None => element
      | Some element' =>
          match callback with
          | Some cb => cb element' updatedState
          | None => element'
          end
      end
  end.

(** [fetchRoverPhotos]: the request joins the fetches in flight. *)
Definition fetchRoverPhotos (element : page) (roverName maxDate state : value)
  : page :=
  Page (innerHTML element) (bsTheme element) (rendered element)
    (pending element ++ [RoverPhotos roverName maxDate state]).

(** [fetchRoverList] *)
Definition fetchRoverList (element : page) (state : value) : page :=
  Page (innerHTML element) (bsTheme element) (rendered element)
    (pending element ++ [RoverList state]).

(** [fetchRoverData] *)
Definition fetchRoverData (element : page) (state : value) : page :=
  match
    selectedRover ← get state "selectedRover";
    name ← get selectedRover "name";
    max_date ← get selectedRover "max_date";
    Some (name, max_date)
  with
  | Some (name, max_date) => fetchRoverPhotos element name max_date state
  | None => element
  end.

(** The patch of the callback in [fetchRoverData]. *)
Definition loadedPatch (data : value) : value :=
  VMap [("selectedRoverGallery", data);
        ("selectedRover", VMap [("loading", VBool false)])].

(** The patch of [showRoverDetails]. *)
Definition loadingPatch (roverData : value) : value :=
  VMap [("selectedRoverGallery", VBool false); ("selectedRover", roverData)].

(** [showRoverDetails].  [Immutable.fromJS] is the identity on the values
    of this model. *)
Definition showRoverDetails (element : page) (state rover : value) : page :=
  match set rover "loading" (VBool true) with
  | None => element
  | Some roverData =>
      updateApplicationState element state (loadingPatch roverData)
        (Some fetchRoverData)
  end.

(** [toggleTheme] *)
Definition toggleTheme (element : page) (state : value) : page :=
  match get state "isDarkMode" with
  | None => element
  | Some darkMode =>
      let element' :=
        updateApplicationState element state
          (VMap [("isDarkMode", VBool (negb (truthy darkMode)))]) None in
      Page (innerHTML element')
        (Some (if truthy darkMode then "light" else "dark"))
        (rendered element') (pending element')
  end.

(** The state of the [load] handler. *)
Definition initialState : value :=
  VMap [("user", VMap [("name", VStr "Student")]);
        ("selectedRover", VBool false);
        ("selectedRoverGallery", VBool false);
        ("isDarkMode", VBool false)].

(** What happens on the page: the load, a click on an inline action with
    the arguments the markup carries, and the arrival of the response to
    the [i]-th fetch in flight. *)
Inductive event : Type :=
| PageLoad
| ThemeClick (state : value)
| RoverClick (state rover : value)
| Response (i : nat) (data : value).

Definition respond (element : page) (req : request) (data : value) : page :=
  match req with
  | RoverPhotos _ _ state =>
      updateApplicationState element state (loadedPatch data) None
  | RoverList state =>
      match property data "rovers" with
      | None => element
      | Some rovers =>
          updateApplicationState element state (VMap [("rovers", rovers)]) None
      end
  end.

Definition step (element : page) (e : event) : page :=
  match e with
  | PageLoad =>
      fetchRoverList (default element (renderUI element initialState))
        initialState
  | ThemeClick state => toggleTheme element state
  | RoverClick state rover => showRoverDetails element state rover
  | Response i data =>
      match pending element !! i with
      | None => element
      | Some req =>
          respond
            (Page (innerHTML element) (bsTheme element) (rendered element)
               (delete i (pending element)))
            req data
      end
  end.

Definition run (element : page) (es : list event) : page :=
  fold_left step es element.

Definition emptyPage : page := Page "" None None [].

(** The snapshot a click starts from: the one of the last render. *)
Definition currentState (element : page) : value :=
  default VUndef (rendered element).

(** ** Shapes of the data model

    The constraints of the data model that rendering depends on: [user] is
    a mapping; [rovers] is absent or a sequence of mappings;
    [selectedRover] is absent, [false] or a mapping; [selectedRoverGallery]
    is absent, [false] or a gallery, whose [photos] is absent or a sequence
    of photos; a photo is a mapping whose [camera] and [rover] are absent
    or mappings.  Absent means [undefined] (the key is not bound) or
    [null].  Scalar fields are left unconstrained. *)

Definition absent_or (shape : value -> bool) (v : value) : bool :=
  match v with
  | VUndef | VNull => true
  | _ => shape v
  end.

Definition absent_false_or (shape : value -> bool) (v : value) : bool :=
  match v with
  | VUndef | VNull | VBool false => true
  | _ => shape v
  end.

Definition sequence_of (shape : value -> bool) (v : value) : bool :=
  match v with
  | VList xs => forallb shape xs
  | _ => false
  end.

Definition is_photo (v : value) : bool :=
  match v with
  | VMap m => absent_or isMap (field "camera" m) && absent_or isMap (field "rover" m)
  | _ => false
  end.

Definition is_gallery (v : value) : bool :=
  match v with
  | VMap m => absent_or (sequence_of is_photo) (field "photos" m)
  | _ => false
  end.

Definition well_formed (state : value) : bool :=
  match state with
  | VMap m =>
      isMap (field "user" m)
      && absent_or (sequence_of isMap) (field "rovers" m)
      && absent_false_or isMap (field "selectedRover" m)
      && absent_false_or is_gallery (field "selectedRoverGallery" m)
  | _ => false
  end.

(** ** Occurrences of a text in markup *)

Definition contains (hay needle : string) : Prop :=
  exists before after, hay = before +:+ needle +:+ after.

Fixpoint starts_with (p s : string) : bool :=
  match p, s with
  | EmptyString, _ => true
  | String a p', String b s' => Ascii.eqb a b && starts_with p' s'
  | String _ _, EmptyString => false
  end.

Fixpoint occurs (needle hay : string) : bool :=
  starts_with needle hay ||
  match hay with
  | EmptyString => false
  | String _ hay' => occurs needle hay'
  end.




(** ** Texts and states used in the statements *)

Definition helloGreeting : string := markup [ "<h2 class='display-4'>Hello!</h2>" ].

Definition welcomeGreeting (name : string) : string :=
  markup [ "<h2 class='display-4'>Welcome, " ] +:+ name +:+ markup [ "!</h2>" ].

(** The state after the photo service answered with an error object. *)
Definition errorGalleryState : value :=
  VMap [("user", VMap [("name", VStr "Student")]);
        ("selectedRover",
         VMap [("name", VStr "Curiosity"); ("max_date", VStr "2024-02-19");
               ("loading", VBool false)]);
        ("selectedRoverGallery",
         VMap [("error", VMap [("code", VStr "OVER_RATE_LIMIT")])]);
        ("isDarkMode", VBool false)].

(** Two rovers and a session: the page is loaded, the rover list arrives,
    the user selects Curiosity, then Spirit while the photos of Curiosity
    are still in flight, and then the photos of Curiosity arrive. *)
Definition curiosity : value :=
  VMap [("name", VStr "Curiosity"); ("launch_date", VStr "2011-11-26");
        ("landing_date", VStr "2012-08-06"); ("status", VStr "active");
        ("max_date", VStr "2024-02-19")].

Definition spirit : value :=
  VMap [("name", VStr "Spirit"); ("launch_date", VStr "2003-06-10");
        ("landing_date", VStr "2004-01-04"); ("status", VStr "complete");
        ("max_date", VStr "2010-03-21")].

Definition curiosityPhotos : value :=
  VMap [("photos",
         VList [VMap [("img_src", VStr "https://mars.nasa.gov/msl/1.jpg");
                      ("earth_date", VStr "2024-02-19");
                      ("camera", VMap [("full_name", VStr "Mast Camera")]);
                      ("rover", VMap [("name", VStr "Curiosity")])]])].

Definition roversListed : page :=
  run emptyPage
    [PageLoad; Response 0 (VMap [("rovers", VList [curiosity; spirit])])].

Definition curiositySelected : page :=
  step roversListed (RoverClick (currentState roversListed) curiosity).

Definition spiritSelected : page :=
  step curiositySelected (RoverClick (currentState curiositySelected) spirit).

Definition curiosityArrived : page :=
  step spiritSelected (Response 0 curiosityPhotos).



(** [state.selectedRover.name] *)
Definition selectedName (state : value) : option value :=
  selectedRover ← get state "selectedRover"; get selectedRover "name".

(** Two photos with the same inline serialisation. *)
Definition quotedPhoto : value :=
  VMap [("img_src", VStr "a','earth_date':'b")].

Definition plainPhoto : value :=
  VMap [("img_src", VStr "a"); ("earth_date", VStr "b")].

(** ** Further notions used in the statements *)

(** [state.mergeDeep(p1).mergeDeep(p2)] *)
Definition mergeDeep2 (state p1 p2 : value) : option value :=
  s1 ← mergeDeep state p1; mergeDeep s1 p2.

(** Does a character occur in a text? *)
Fixpoint has_char (c : ascii) (s : string) : bool :=
  match s with
  | EmptyString => false
  | String x s' => Ascii.eqb x c || has_char c s'
  end.

(** No key and no string of the value holds an apostrophe. *)
Fixpoint apostrophe_free (v : value) : bool :=
  match v with
  | VStr s => negb (has_char "'"%char s)
  | VMap kvs =>
      forallb (fun kv => negb (has_char "'"%char (fst kv))
                         && apostrophe_free (snd kv)) kvs
  | VList xs => forallb apostrophe_free xs
  | _ => true
  end.

(** The members that [JSON.stringify] prints for a map: the inner loop of
    [stringify], named for the proofs. *)
Fixpoint jsonMembers (kvs : list (string * value)) : list string :=
  match kvs with
  | [] => []
  | (k, v) :: rest =>
      match v with
      | VUndef => jsonMembers rest
      | _ => (quoteJSONString k +:+ ":" +:+ stringify v) :: jsonMembers rest
      end
  end.

(** When does the render succeed?  [has_get v]: the value has a [get]
    method; [read coll key]: what [coll.get(key)] answers then. *)
Definition has_get (v : value) : bool := isMap v || isList v.

Definition nullish (v : value) : bool :=
  match v with
  | VUndef | VNull => true
  | _ => false
  end.

Definition read (coll : value) (key : string) : value :=
  default VUndef (get coll key).

Definition all_elements (ok : value -> bool) (coll : value) : bool :=
  match elements coll with
  | Some xs => forallb ok xs
  | None => false
  end.

Definition photo_renders (photo : value) : bool :=
  has_get photo
  && (nullish (read photo "camera") || has_get (read photo "camera"))
  && (nullish (read photo "rover") || has_get (read photo "rover")).

Definition rovers_render (rovers : value) : bool :=
  negb (truthy rovers) || all_elements has_get rovers.

Definition gallery_renders (gallery : value) : bool :=
  negb (truthy gallery)
  || (has_get gallery
      && (nullish (read gallery "photos")
          || all_elements photo_renders (read gallery "photos"))).

Definition renderable (state : value) : bool :=
  has_get state
  && has_get (read state "user")
  && rovers_render (read state "rovers")
  && gallery_renders (read state "selectedRoverGallery").




(** The patch of [toggleTheme]. *)
Definition themePatch (darkMode : value) : value :=
  VMap [("isDarkMode", VBool (negb (truthy darkMode)))].

(** The opening tag of the main content for a theme class. *)
Definition mainOpening (themeClass : string) : string :=
  markup [ "<main class='container py-5 " ] +:+ themeClass +:+ markup [ "'>" ].

Definition footerOpening (themeClass : string) : string :=
  markup [ "<footer class='py-3 text-center " ] +:+ themeClass
  +:+ markup [ "'>" ].

Definition themeClassOf (dark : bool) : string :=
  if dark then "dark-mode" else "light-mode".

(** ** Sessions

    A session is a sequence of events.  Its clicks are well shaped when
    they carry a well-formed state (and a rover that is a mapping); an
    answer to the rover list is well shaped when it is an object whose
    [rovers] is absent or a sequence of mappings; an answer to a photo
    request when it is absent, [false] or a gallery. *)

Definition rovers_answer (data : value) : bool :=
  match data with
  | VMap d => absent_or (sequence_of isMap) (field "rovers" d)
  | _ => false
  end.

Definition event_ok (element : page) (e : event) : bool :=
  match e with
  | PageLoad => true
  | ThemeClick state => well_formed state
  | RoverClick state rover => well_formed state && isMap rover
  | Response i data =>
      match pending element !! i with
      | Some (RoverList _) => rovers_answer data
      | Some (RoverPhotos _ _ _) => absent_false_or is_gallery data
      | None => true
      end
  end.

Fixpoint session_ok (element : page) (es : list event) : bool :=
  match es with
  | [] => true
  | e :: es' => event_ok element e && session_ok (step element e) es'
  end.

(** The snapshot a request carries is well formed, and the one of a photo
    request has no gallery. *)
Definition captured_ok (req : request) : bool :=
  match req with
  | RoverList state => well_formed state
  | RoverPhotos _ _ state =>
      well_formed state && negb (has_get (read state "selectedRoverGallery"))
  end.

(** The page is consistent: its markup is the render of the snapshot it
    remembers, that snapshot is well formed, and so is every snapshot in
    flight. *)
Definition consistent (element : page) : Prop :=
  match rendered element with
  | Some state =>
      well_formed state = true /\
      generateAppContent state = Some (innerHTML element)
  | None => True
  end /\
  forallb captured_ok (pending element) = true.

(** The snapshot an event is to put on the page: the state its handler
    starts from, merged with the patch of the handler.  There is none when
    no handler merges anything: an answer to a request that is not in
    flight, or an answer to the rover list that is not an object. *)
Definition shown (element : page) (e : event) : option value :=
  match e with
  | PageLoad => Some initialState
  | ThemeClick state =>
      darkMode ← get state "isDarkMode"; mergeDeep state (themePatch darkMode)
  | RoverClick state rover =>
      roverData ← set rover "loading" (VBool true);
      mergeDeep state (loadingPatch roverData)
  | Response i data =>
      req ← pending element !! i;
      match req with
      | RoverList state =>
          rovers ← property data "rovers";
          mergeDeep state (VMap [("rovers", rovers)])
      | RoverPhotos _ _ state => mergeDeep state (loadedPatch data)
      end
  end.

(** The event is rendered: after it, the page remembers the snapshot the
    event was to show and its markup is the render of that snapshot; an
    event without a snapshot to show leaves markup and snapshot alone. *)
Definition shows (element : page) (e : event) : Prop :=
  match shown element e with
  | Some state =>
      rendered (step element e) = Some state /\
      generateAppContent state = Some (innerHTML (step element e))
  | None =>
      rendered (step element e) = rendered element /\
      innerHTML (step element e) = innerHTML element
  end.

(** Every field of the rover holds a scalar. *)
Definition scalar_fields (r : list (string * value)) : bool :=
  forallb (fun kv => negb (has_get (snd kv))) r.

(** ** The server of the dashboard

    The Express application of the server file, as the ordered list of its
    layers: four middlewares mounted with [app.use] (the two body parsers
    and the two static directories) and three [app.get] routes, in the
    order in which the file registers them.  A middleware either ends the
    request (a static file is served, a body is rejected) or passes it on;
    which of the two is the parameter [ends].  A route handles a request
    with the method GET or HEAD whose path its pattern matches, and none of
    the three handlers passes the request on; the matching of patterns is
    the parameter [matches]. *)

Inductive method : Type := GET | HEAD | POST | PUT | DELETE | OtherMethod.

Record httpRequest : Type := HttpRequest {
  requestMethod : method;
  requestPath : string
}.

Inductive handler : Type :=
| SendIndexPage
| ProxyRovers
| ProxyRoverPhotos.

Inductive layer : Type :=
| Use (n : nat)
| Get (pattern : string) (h : handler).

Definition app : list layer :=
  [Use 0; Use 1; Use 2; Use 3;
   Get "*" SendIndexPage;
   Get "/rovers" ProxyRovers;
   Get "/rovers/:name" ProxyRoverPhotos].

Inductive outcome : Type :=
| EndedByMiddleware (n : nat)
| HandledBy (h : handler)
| NotFound.

Definition get_or_head (m : method) : bool :=
  match m with
  | GET | HEAD => true
  | _ => false
  end.

Fixpoint dispatch (ends : nat -> httpRequest -> bool)
  (matches : string -> string -> bool) (layers : list layer)
  (req : httpRequest) : outcome :=
  match layers with
  | [] => NotFound
  | Use n :: rest =>
      if ends n req then EndedByMiddleware n
      else dispatch ends matches rest req
  | Get pattern h :: rest =>
      if get_or_head (requestMethod req) && matches pattern (requestPath req)
      then HandledBy h
      else dispatch ends matches rest req
  end.

(** * Properties *)

(** Induction over values that reaches inside maps and lists. *)
Lemma value_induction (P : value -> Prop) :
  P VUndef -> P VNull ->
  (forall b, P (VBool b)) -> (forall n, P (VNum n)) -> (forall s, P (VStr s)) ->
  (forall kvs, Forall (fun kv => P (snd kv)) kvs -> P (VMap kvs)) ->
  (forall xs, Forall P xs -> P (VList xs)) ->
  forall v, P v.
Proof.
  intros Hu Hn Hb Hz Hs Hm Hl.
  fix IH 1.
  intros [ | | b | n | s | kvs | xs].
  - exact Hu.
  - exact Hn.
  - apply Hb.
  - apply Hz.
  - apply Hs.
  - apply Hm. revert kvs. fix IHkvs 1.
    intros [ | [k v] kvs]; constructor; [ apply IH | apply IHkvs ].
  - apply Hl. revert xs. fix IHxs 1.
    intros [ | x xs]; constructor; [ apply IH | apply IHxs ].
Qed.

(** ** Lookups after [set_key] and after the merge loop *)

Lemma lookup_set_key_eq k v m : lookup_key k (set_key k v m) = Some v.
Proof.
  induction m as [ | [k' v'] m IH]; simpl.
  - now rewrite String.eqb_refl.
  - destruct (String.eqb k k') eqn:E; simpl.
    + now rewrite String.eqb_refl.
    + now rewrite E.
Qed.

Lemma lookup_set_key_ne k k' v m :
  k <> k' -> lookup_key k' (set_key k v m) = lookup_key k' m.
Proof.
  intros Hne. induction m as [ | [k0 v0] m IH]; simpl.
  - destruct (String.eqb_spec k' k); congruence.
  - destruct (String.eqb_spec k k0) as [-> | Hk]; simpl.
    + destruct (String.eqb_spec k' k0); congruence.
    + now rewrite IH.
Qed.

Lemma lookup_mergeEntry_eq c k v :
  lookup_key k (mergeEntry c k v) =
  Some (match lookup_key k c with
        | None => v
        | Some old => deepMerger old v
        end).
Proof.
  unfold mergeEntry. destruct (lookup_key k c); apply lookup_set_key_eq.
Qed.

Lemma lookup_mergeEntry_ne c k k' v :
  k <> k' -> lookup_key k' (mergeEntry c k v) = lookup_key k' c.
Proof.
  intros Hne. unfold mergeEntry.
  destruct (lookup_key k c); now apply lookup_set_key_ne.
Qed.

Lemma deepMerger_maps c p :
  deepMerger (VMap c) (VMap p) = VMap (mergeIntoKeyedWith p c).
Proof.
  reflexivity.
Qed.

Lemma lookup_absent_existsb k m :
  existsb (String.eqb k) (map fst m) = false -> lookup_key k m = None.
Proof.
  induction m as [ | [k' v'] m IH]; simpl; [ reflexivity | ].
  destruct (String.eqb k k'); simpl; [ discriminate | exact IH ].
Qed.

(** With distinct patch keys, every key of the merged map is read off the
    two inputs. *)
Lemma lookup_mergeIntoKeyedWith p :
  distinct (map fst p) = true ->
  forall c k,
    lookup_key k (mergeIntoKeyedWith p c) =
    match lookup_key k p with
    | None => lookup_key k c
    | Some v => Some (match lookup_key k c with
                      | None => v
                      | Some old => deepMerger old v
                      end)
    end.
Proof.
  induction p as [ | [k0 v0] p IH]; intros Hd c k; simpl in *; [ reflexivity | ].
  apply andb_prop in Hd as [Hfresh Hd].
  apply negb_true_iff in Hfresh.
  rewrite (IH Hd).
  destruct (String.eqb_spec k k0) as [-> | Hne].
  - rewrite (lookup_absent_existsb _ _ Hfresh). apply lookup_mergeEntry_eq.
  - rewrite lookup_mergeEntry_ne by congruence. reflexivity.
Qed.

Lemma Forall_lookup_key (P : string * value -> Prop) m k v :
  Forall P m -> lookup_key k m = Some v -> P (k, v).
Proof.
  induction 1 as [ | [k' v'] m Hv _ IH]; simpl; [ discriminate | ].
  destruct (String.eqb_spec k k') as [-> | _]; [ | exact IH ].
  intros [= <-]. exact Hv.
Qed.

Lemma unique_keys_lookup m k v :
  forallb (fun kv => unique_keys (snd kv)) m = true ->
  lookup_key k m = Some v -> unique_keys v = true.
Proof.
  induction m as [ | [k' v'] m IH]; simpl; [ discriminate | ].
  intros [Hv Hm]%andb_prop.
  destruct (String.eqb k k'); [ | now apply IH ].
  now intros [= <-].
Qed.

(** The merger realises the deep merge that concatenates sequences. *)
Lemma deepMerger_deep_merge pat :
  unique_keys pat = true ->
  forall cur, deep_merge true cur pat (deepMerger cur pat).
Proof.
  induction pat as [ | | b | n | s | p IHp | ys _] using value_induction;
    intros Hwf cur;
    try (apply dm_overwrite; simpl; now rewrite ?andb_false_r).
  - destruct cur as [ | | b | n | s | c | xs];
      try (apply dm_overwrite; reflexivity).
    rewrite deepMerger_maps. simpl in Hwf.
    apply andb_prop in Hwf as [Hd Hvals].
    apply dm_mappings. intros k.
    rewrite (lookup_mergeIntoKeyedWith p Hd).
    destruct (lookup_key k p) as [v | ] eqn:Hp; [ | apply dma_absent ].
    destruct (lookup_key k c) as [old | ]; [ | apply dma_fresh ].
    apply dma_both.
    pose proof (Forall_lookup_key _ _ _ _ IHp Hp) as IHv. simpl in IHv.
    apply IHv. exact (unique_keys_lookup _ _ _ Hvals Hp).
  - destruct cur as [ | | b | n | s | c | xs];
      try (apply dm_overwrite; reflexivity).
    now apply dm_sequences.
Qed.

Lemma no_seq_clash_lookup c p k old v :
  no_seq_clash (VMap c) (VMap p) = true ->
  lookup_key k c = Some old -> lookup_key k p = Some v ->
  no_seq_clash old v = true.
Proof.
  simpl. induction p as [ | [k' v'] p IH]; simpl; [ discriminate | ].
  intros [Hkv Hp]%andb_prop Hc.
  destruct (String.eqb_spec k k') as [-> | Hne]; [ | now apply IH ].
  intros [= <-]. now rewrite Hc in Hkv.
Qed.

Lemma deep_merge_without_clash pat :
  forall cur r,
    no_seq_clash cur pat = true ->
    deep_merge true cur pat r -> deep_merge false cur pat r.
Proof.
  induction pat as [ | | b | n | s | p IHp | ys _] using value_induction;
    intros cur r Hclash Hm; inversion Hm; subst;
    try (apply dm_overwrite; [ assumption | reflexivity ]).
  - apply dm_mappings. intros k.
    match goal with H : forall k, deep_merge_at _ _ _ _ |- _ =>
      specialize (H k); rename H into Hk end.
    destruct (lookup_key k c) as [old | ] eqn:Hc;
      destruct (lookup_key k p) as [v | ] eqn:Hp;
      inversion Hk; subst; try constructor.
    pose proof (Forall_lookup_key _ _ _ _ IHp Hp) as IHv. simpl in IHv.
    apply IHv; [ | assumption ].
    exact (no_seq_clash_lookup _ _ _ _ _ Hclash Hc Hp).
  - simpl in Hclash. discriminate.
Qed.

(** ** The merge against the specification's deep merge *)

(** C2, as stated, fails where both sides hold a sequence: merging the patch
    [{rovers: [3]}] into [{rovers: [1, 2]}] yields [{rovers: [1, 2, 3]}],
    which is not the overwrite that the sentence asks for. *)
Lemma mergeDeep_sequences_not_overwritten :
  exists r,
    mergeDeep (VMap [("rovers", VList [VNum 1; VNum 2])])
              (VMap [("rovers", VList [VNum 3])]) = Some r /\
    r = VMap [("rovers", VList [VNum 1; VNum 2; VNum 3])] /\
    ~ deep_merge false (VMap [("rovers", VList [VNum 1; VNum 2])])
                       (VMap [("rovers", VList [VNum 3])]) r.
Proof.
  eexists. split; [ reflexivity | ]. split; [ reflexivity | ].
  intros Hm. inversion Hm as [c p r Hk | | ]; subst; try discriminate.
  specialize (Hk "rovers"). simpl in Hk.
  inversion Hk as [ | | cur pat r Hr]; subst.
  inversion Hr; subst; discriminate.
Qed.

(** C2 (amended): for every state and every patch with distinct keys, the
    merge of the update coordinator is the recursive deep merge in which,
    for each key of the patch, the values are merged recursively when both
    sides are mappings, the patch sequence is appended to the current one
    when both sides are sequences, and the patch value overwrites
    otherwise; a key absent from the patch keeps its value.  Where no key
    holds a sequence on both sides this is the deep merge as the sentence
    states it. *)
Theorem mergeDeep_deep_merge (c p : list (string * value)) :
  unique_keys (VMap p) = true ->
  exists r,
    mergeDeep (VMap c) (VMap p) = Some r /\
    deep_merge true (VMap c) (VMap p) r /\
    (no_seq_clash (VMap c) (VMap p) = true ->
     deep_merge false (VMap c) (VMap p) r).
Proof.
  intros Hwf. exists (deepMerger (VMap c) (VMap p)).
  split; [ reflexivity | ].
  pose proof (deepMerger_deep_merge (VMap p) Hwf (VMap c)) as Hm.
  split; [ exact Hm | ].
  intros Hclash. now apply deep_merge_without_clash.
Qed.

Lemma mergeDeep_deep_merge_witness :
  exists r,
    mergeDeep initialState (loadedPatch (VMap [("photos", VList [])])) = Some r /\
    deep_merge true initialState (loadedPatch (VMap [("photos", VList [])])) r /\
    (no_seq_clash initialState (loadedPatch (VMap [("photos", VList [])])) = true ->
     deep_merge false initialState (loadedPatch (VMap [("photos", VList [])])) r).
Proof.
  apply (mergeDeep_deep_merge
           [("user", VMap [("name", VStr "Student")]);
            ("selectedRover", VBool false);
            ("selectedRoverGallery", VBool false);
            ("isDarkMode", VBool false)]
           [("selectedRoverGallery", VMap [("photos", VList [])]);
            ("selectedRover", VMap [("loading", VBool false)])]).
  reflexivity.
Defined.

(** ** The Loaded patch *)

(** C9: when [selectedRover] is a mapping, the Loaded patch
    [{selectedRoverGallery: gallery, selectedRover: {loading: false}}]
    leaves every field of [selectedRover] other than [loading] as it was,
    [name] among them, and sets [loading] to [false]. *)
Theorem loadedPatch_keeps_selectedRover
  (s sel : list (string * value)) (gallery : value) :
  lookup_key "selectedRover" s = Some (VMap sel) ->
  exists s' sel',
    mergeDeep (VMap s) (loadedPatch gallery) = Some (VMap s') /\
    lookup_key "selectedRover" s' = Some (VMap sel') /\
    lookup_key "loading" sel' = Some (VBool false) /\
    lookup_key "name" sel' = lookup_key "name" sel /\
    forall k, k <> "loading" -> lookup_key k sel' = lookup_key k sel.
Proof.
  intros Hsel.
  exists (mergeIntoKeyedWith
            [("selectedRoverGallery", gallery);
             ("selectedRover", VMap [("loading", VBool false)])] s),
         (mergeIntoKeyedWith [("loading", VBool false)] sel).
  assert (Hother : forall k, k <> "loading" ->
            lookup_key k (mergeIntoKeyedWith [("loading", VBool false)] sel)
            = lookup_key k sel).
  { intros k Hk. rewrite lookup_mergeIntoKeyedWith by reflexivity. simpl.
    destruct (String.eqb_spec k "loading"); [ contradiction | reflexivity ]. }
  split; [ reflexivity | ].
  split.
  { rewrite lookup_mergeIntoKeyedWith by reflexivity. simpl. now rewrite Hsel. }
  split.
  { rewrite lookup_mergeIntoKeyedWith by reflexivity. simpl.
    now destruct (lookup_key "loading" sel). }
  split; [ now apply Hother | exact Hother ].
Qed.

Lemma loadedPatch_keeps_selectedRover_witness :
  exists s' sel',
    mergeDeep
      (VMap [("selectedRover",
              VMap [("name", VStr "Curiosity"); ("max_date", VStr "2024-02-19");
                    ("loading", VBool true)])])
      (loadedPatch (VMap [("photos", VList [])])) = Some (VMap s') /\
    lookup_key "selectedRover" s' = Some (VMap sel') /\
    lookup_key "loading" sel' = Some (VBool false) /\
    lookup_key "name" sel' = Some (VStr "Curiosity") /\
    forall k, k <> "loading" ->
      lookup_key k sel' =
      lookup_key k [("name", VStr "Curiosity"); ("max_date", VStr "2024-02-19");
                    ("loading", VBool true)].
Proof.
  apply (loadedPatch_keeps_selectedRover
           [("selectedRover",
             VMap [("name", VStr "Curiosity"); ("max_date", VStr "2024-02-19");
                   ("loading", VBool true)])]
           [("name", VStr "Curiosity"); ("max_date", VStr "2024-02-19");
            ("loading", VBool true)]
           (VMap [("photos", VList [])])).
  reflexivity.
Defined.

(** ** Texts and their occurrences *)

Lemma append_cons (x : ascii) (a b : string) :
  String x a +:+ b = String x (a +:+ b).
Proof. reflexivity. Qed.

Lemma append_assoc (a b c : string) : (a +:+ b) +:+ c = a +:+ b +:+ c.
Proof.
  induction a as [ | x a IH]; [ reflexivity | ].
  now rewrite !append_cons, IH.
Qed.

Lemma append_nil_r (a : string) : a +:+ "" = a.
Proof.
  induction a as [ | x a IH]; [ reflexivity | ].
  now rewrite append_cons, IH.
Qed.

Lemma contains_here (needle after : string) : contains (needle +:+ after) needle.
Proof. exists "", after. reflexivity. Qed.

Lemma contains_later (a hay needle : string) :
  contains hay needle -> contains (a +:+ hay) needle.
Proof.
  intros (before & after & ->). exists (a +:+ before), after.
  now rewrite append_assoc.
Qed.

Lemma contains_whole (s : string) : contains s s.
Proof. exists "", "". simpl. now rewrite append_nil_r. Qed.

Lemma contains_trans (a b c : string) :
  contains a b -> contains b c -> contains a c.
Proof.
  intros (p & q & ->) (p' & q' & ->).
  exists (p +:+ p'), (q' +:+ q). now rewrite !append_assoc.
Qed.

Lemma starts_with_spec (p s : string) :
  starts_with p s = true <-> exists rest, s = p +:+ rest.
Proof.
  revert s. induction p as [ | a p IH]; intros s; simpl.
  - split; [ intros _; now exists s | reflexivity ].
  - destruct s as [ | b s].
    + split; [ discriminate | intros (rest & [=]) ].
    + rewrite andb_true_iff, IH. split.
      * intros [->%Ascii.eqb_eq (rest & ->)]. now exists rest.
      * intros (rest & [= -> ->]). split; [ apply Ascii.eqb_refl | now exists rest ].
Qed.

(** [occurs] decides [contains]. *)
Lemma occurs_spec (needle hay : string) :
  occurs needle hay = true <-> contains hay needle.
Proof.
  induction hay as [ | c hay IH]; simpl.
  - rewrite orb_false_r, starts_with_spec. split.
    + intros (rest & ->). apply contains_here.
    + intros ([ | x before] & after & E); simpl in E; [ now exists after | discriminate ].
  - rewrite orb_true_iff, starts_with_spec, IH. split.
    + intros [(rest & ->) | H]; [ apply contains_here | ].
      now apply (contains_later (String c "")).
    + intros ([ | x before] & after & E); simpl in E.
      * left. now exists after.
      * right. injection E as -> ->. now exists before, after.
Qed.


Lemma has_char_append (c : ascii) (a b : string) :
  has_char c (a +:+ b) = has_char c a || has_char c b.
Proof.
  induction a as [ | x a IH]; [ reflexivity | ].
  rewrite append_cons. simpl. now rewrite IH, orb_assoc.
Qed.

Lemma has_char_replace (from to : ascii) (s : string) :
  from <> to -> has_char from (replace_char from to s) = false.
Proof.
  intros Hne. induction s as [ | x s IH]; [ reflexivity | ].
  simpl. rewrite IH, orb_false_r.
  destruct (Ascii.eqb_spec x from) as [-> | Hx].
  - now apply Ascii.eqb_neq.
  - now apply Ascii.eqb_neq.
Qed.






(** The holes of the application markup occur in it. *)
Lemma appMarkup_contains_greeting j l t g r c :
  contains (appMarkup j l t g r c) g.
Proof. unfold appMarkup. do 7 apply contains_later. apply contains_here. Qed.

Lemma appMarkup_contains_rovers j l t g r c :
  contains (appMarkup j l t g r c) r.
Proof. unfold appMarkup. do 9 apply contains_later. apply contains_here. Qed.


Lemma photoCardMarkup_contains_camera url camera rover description :
  contains (photoCardMarkup url camera rover description) camera.
Proof. unfold photoCardMarkup. do 3 apply contains_later. apply contains_here. Qed.

Lemma photoCardMarkup_contains_rover url camera rover description :
  contains (photoCardMarkup url camera rover description) rover.
Proof. unfold photoCardMarkup. do 5 apply contains_later. apply contains_here. Qed.

Lemma photoCardMarkup_contains_description url camera rover description :
  contains (photoCardMarkup url camera rover description) description.
Proof. unfold photoCardMarkup. do 9 apply contains_later. apply contains_here. Qed.

Lemma photoDescription_contains_date camera date rover :
  contains (photoDescription camera date rover) date.
Proof. unfold photoDescription. do 3 apply contains_later. apply contains_here. Qed.

(** ** Rendering: when it succeeds and what it produces *)

Arguments convertToJSON : simpl never.
Arguments toString : simpl never.
Arguments markup : simpl never.
Arguments appMarkup : simpl never.
Arguments roverCardMarkup : simpl never.
Arguments photoCardMarkup : simpl never.
Arguments photoDescription : simpl never.
Arguments createGreeting : simpl never.

Lemma convertToJSON_defined (v : value) :
  v <> VUndef -> exists json, convertToJSON v = Some json.
Proof.
  intros Hv. unfold convertToJSON, JSON_stringify.
  destruct v; try contradiction; eexists; reflexivity.
Qed.

Lemma createRoverCard_total (m r : list (string * value)) :
  exists card, createRoverCard (VMap m) (VMap r) = Some card.
Proof.
  unfold createRoverCard.
  destruct (convertToJSON_defined (VMap m)) as [sj ->]; [ discriminate | ].
  destruct (convertToJSON_defined (VMap r)) as [rj ->]; [ discriminate | ].
  simpl. destruct (field "selectedRover" m); simpl; eexists; reflexivity.
Qed.

Lemma mapM_total {A B} (f : A -> option B) (shape : A -> bool) (xs : list A) :
  (forall x, shape x = true -> exists y, f x = Some y) ->
  forallb shape xs = true -> exists ys, mapM f xs = Some ys.
Proof.
  intros Hf. induction xs as [ | x xs IH]; simpl.
  - intros _. now exists [].
  - intros [Hx Hxs]%andb_prop.
    destruct (Hf x Hx) as [y Hy]. destruct (IH Hxs) as [ys Hys].
    exists (y :: ys). now rewrite Hy, Hys.
Qed.

Lemma roverCardsHtml_total (m : list (string * value)) (rovers : value) :
  absent_or (sequence_of isMap) rovers = true ->
  exists cards, roverCardsHtml (VMap m) rovers = Some cards.
Proof.
  unfold roverCardsHtml.
  destruct rovers as [ | | b | n | s | kvs | xs]; simpl; try discriminate;
    try (intros _; now eexists).
  intros Hxs. unfold map_join. simpl.
  destruct (mapM_total (createRoverCard (VMap m)) isMap xs) as [cards ->];
    [ | exact Hxs | now eexists ].
  intros [ | | | | | r | ] Hr; try discriminate. apply createRoverCard_total.
Qed.

Lemma get_optional_absent_or_map (v : value) (key : string) :
  absent_or isMap v = true -> exists w, get_optional v key = Some w.
Proof. destruct v; simpl; try discriminate; intros _; now eexists. Qed.

Lemma createPhotoCard_total (photo : value) :
  is_photo photo = true -> exists card, createPhotoCard photo = Some card.
Proof.
  destruct photo as [ | | | | | m | ]; simpl; try discriminate.
  intros [Hc Hr]%andb_prop.
  unfold createPhotoCard, photoCameraName, photoRoverName. simpl.
  destruct (get_optional_absent_or_map _ "full_name" Hc) as [c ->].
  destruct (get_optional_absent_or_map _ "name" Hr) as [r ->].
  simpl. now eexists.
Qed.

Lemma galleryHtml_total (gallery : value) :
  absent_false_or is_gallery gallery = true ->
  exists cards, galleryHtml gallery = Some cards.
Proof.
  unfold galleryHtml.
  destruct gallery as [ | | [ | ] | n | s | g | xs]; simpl; try discriminate;
    try (intros _; now eexists).
  destruct (field "photos" g) as [ | | b | n | s | kvs | photos]; simpl;
    try discriminate; try (intros _; now eexists).
  intros Hphotos. unfold map_join. simpl.
  destruct (mapM_total createPhotoCard is_photo photos) as [cards ->];
    [ apply createPhotoCard_total | exact Hphotos | now eexists ].
Qed.

(** Every well-formed state renders. *)
Lemma well_formed_renders (state : value) :
  well_formed state = true -> exists html, generateAppContent state = Some html.
Proof.
  destruct state as [ | | | | | m | ]; simpl; try discriminate.
  intros [[[Huser Hrovers]%andb_prop Hsel]%andb_prop Hgallery]%andb_prop.
  unfold generateAppContent.
  destruct (convertToJSON_defined (VMap m)) as [sj ->]; [ discriminate | ].
  simpl.
  destruct (roverCardsHtml_total m _ Hrovers) as [rc ->].
  destruct (galleryHtml_total _ Hgallery) as [gc ->].
  destruct (field "user" m); try discriminate.
  simpl. now eexists.
Qed.

(** What a successful render was computed from. *)
Lemma generateAppContent_inv (state : value) (html : string) :
  generateAppContent state = Some html ->
  exists user rovers gallery darkMode roverCards galleryCards stateJson name,
    get state "user" = Some user /\
    get state "rovers" = Some rovers /\
    get state "selectedRoverGallery" = Some gallery /\
    get state "isDarkMode" = Some darkMode /\
    roverCardsHtml state rovers = Some roverCards /\
    galleryHtml gallery = Some galleryCards /\
    convertToJSON state = Some stateJson /\
    get user "name" = Some name /\
    html = appMarkup stateJson
             (if truthy darkMode then "Light Mode" else "Dark Mode")
             (if truthy darkMode then "dark-mode" else "light-mode")
             (createGreeting name) roverCards (toString galleryCards).
Proof.
  unfold generateAppContent. intros H.
  apply bind_Some in H as (user & Huser & H).
  apply bind_Some in H as (rovers & Hrovers & H).
  apply bind_Some in H as (gallery & Hgallery & H).
  apply bind_Some in H as (darkMode & Hdark & H).
  apply bind_Some in H as (rc & Hrc & H).
  apply bind_Some in H as (gc & Hgc & H).
  apply bind_Some in H as (sj & Hsj & H).
  apply bind_Some in H as (name & Hname & H).
  injection H as <-.
  exists user, rovers, gallery, darkMode, rc, gc, sj, name.
  repeat split; assumption.
Qed.

(** C3: the render is total and pure on well-formed states: every
    well-formed state evaluates to a markup string, and every evaluation
    on an equal state yields that same string.  The initial state, in
    which rovers and gallery are absent, is well formed. *)
Theorem generateAppContent_total_pure (state : value) :
  well_formed state = true ->
  exists html,
    generateAppContent state = Some html /\
    forall state', state' = state -> generateAppContent state' = Some html.
Proof.
  intros Hwf. destruct (well_formed_renders state Hwf) as [html Hhtml].
  exists html. split; [ exact Hhtml | ]. now intros state' ->.
Qed.

Lemma generateAppContent_total_pure_witness :
  exists html,
    generateAppContent initialState = Some html /\
    forall state', state' = initialState -> generateAppContent state' = Some html.
Proof. apply (generateAppContent_total_pure initialState). reflexivity. Defined.

(** ** The rover section *)















(** ** The gallery section *)


(** No gallery, no markup. *)
Lemma galleryHtml_without_gallery (gallery : value) :
  truthy gallery = false -> galleryHtml gallery = Some (VStr "").
Proof. intros Ht. unfold galleryHtml. now rewrite Ht. Qed.

(** A gallery without [photos]: the optional chain yields [undefined]. *)
Lemma galleryHtml_without_photos (gallery : value) :
  truthy gallery = true ->
  get gallery "photos" = Some VUndef ->
  galleryHtml gallery = Some VUndef.
Proof. intros Ht Hphotos. unfold galleryHtml. now rewrite Ht, Hphotos. Qed.

(** C5, at a gallery that is present but has no [photos]: the gallery
    section is not empty, it is the text [undefined]. *)
Theorem gallery_without_photos_renders_undefined :
  galleryHtml (VMap [("error", VMap [("code", VStr "OVER_RATE_LIMIT")])])
  = Some VUndef /\
  exists stateJson,
    convertToJSON errorGalleryState = Some stateJson /\
    generateAppContent errorGalleryState =
    Some (appMarkup stateJson "Dark Mode" "light-mode"
            (createGreeting (VStr "Student")) showLoadingSpinner "undefined").
Proof.
  split; [ reflexivity | ].
  exists (default "" (convertToJSON errorGalleryState)).
  split; vm_compute; reflexivity.
Qed.

(** ** Photo cards *)

Lemma js_or_truthy (v : value) (fallback : string) :
  fallback <> "" -> truthy (js_or v (VStr fallback)) = true.
Proof.
  intros Hne. unfold js_or. destruct (truthy v) eqn:Hv; [ exact Hv | ].
  simpl. now destruct (String.eqb_spec fallback "").
Qed.

(** C7: a well-shaped photo renders to a card, and in every rendered card
    the camera, the date and the rover are each printed from a value that
    is present (never [undefined], [null] or empty): a missing
    [camera.full_name] is printed as [Unknown Camera], a missing
    [earth_date] as [Unknown Date] and a missing [rover.name] as
    [Unknown Rover]. *)
Theorem createPhotoCard_defaults (photo : value) :
  (is_photo photo = true -> exists card, createPhotoCard photo = Some card) /\
  forall card,
    createPhotoCard photo = Some card ->
    exists url camera date rover,
      card = photoCardMarkup url (toString camera) (toString rover)
               (photoDescription (toString camera) (toString date)
                  (toString rover)) /\
      contains card (toString camera) /\
      contains card (toString date) /\
      contains card (toString rover) /\
      truthy camera = true /\ truthy date = true /\ truthy rover = true /\
      (photoCameraName photo = Some VUndef ->
       toString camera = "Unknown Camera") /\
      (get photo "earth_date" = Some VUndef -> toString date = "Unknown Date") /\
      (photoRoverName photo = Some VUndef -> toString rover = "Unknown Rover").
Proof.
  split; [ apply createPhotoCard_total | ].
  intros card Hcard.
  pose proof Hcard as H. unfold createPhotoCard in H.
  apply bind_Some in H as (url & Hurl & H).
  apply bind_Some in H as (full_name & Hcam & H).
  apply bind_Some in H as (earth_date & Hdate & H).
  apply bind_Some in H as (name & Hrov & H).
  injection H as <-.
  exists (toString url), (js_or full_name (VStr "Unknown Camera")),
    (js_or earth_date (VStr "Unknown Date")), (js_or name (VStr "Unknown Rover")).
  split; [ reflexivity | ].
  split; [ apply photoCardMarkup_contains_camera | ].
  split.
  { eapply contains_trans;
      [ apply photoCardMarkup_contains_description
      | apply photoDescription_contains_date ]. }
  split; [ apply photoCardMarkup_contains_rover | ].
  repeat split; try (now apply js_or_truthy).
  - rewrite Hcam. now intros [= ->].
  - rewrite Hdate. now intros [= ->].
  - rewrite Hrov. now intros [= ->].
Qed.

Lemma createPhotoCard_defaults_witness :
  exists card,
    createPhotoCard (VMap [("img_src", VStr "https://mars.nasa.gov/1.jpg")])
    = Some card /\
    contains card "Unknown Camera" /\
    contains card "Unknown Date" /\
    contains card "Unknown Rover".
Proof.
  destruct (createPhotoCard_defaults
              (VMap [("img_src", VStr "https://mars.nasa.gov/1.jpg")]))
    as [Htotal Hcards].
  destruct Htotal as [card Hcard]; [ reflexivity | ].
  exists card. split; [ exact Hcard | ].
  destruct (Hcards card Hcard)
    as (url & camera & date & rover & _ & Hc & Hd & Hr & _ & _ & _
        & Ec & Ed & Er).
  rewrite Ec in Hc by reflexivity.
  rewrite Ed in Hd by reflexivity.
  rewrite Er in Hr by reflexivity.
  now repeat split.
Defined.

(** When is a field of a photo missing: the photo has no [camera], or its
    [camera] is a mapping without [full_name]. *)
Lemma photoCameraName_missing (m : list (string * value)) :
  lookup_key "camera" m = None \/
  (exists c, lookup_key "camera" m = Some (VMap c) /\
             lookup_key "full_name" c = None) ->
  photoCameraName (VMap m) = Some VUndef.
Proof.
  unfold photoCameraName, get, field.
  intros [-> | (c & -> & Hc)]; simpl; [ reflexivity | ].
  unfold field. now rewrite Hc.
Qed.

(** ** The greeting and the [user] key *)

(** C10, as stated, fails for a [user] that is a sequence: a sequence is not
    a mapping, yet it answers [get], and the state renders with the
    greeting [Hello!]. *)
Lemma user_sequence_renders :
  isMap (VList []) = false /\
  exists html,
    generateAppContent (VMap [("user", VList [])]) = Some html /\
    contains html helloGreeting.
Proof.
  split; [ reflexivity | ].
  eexists. split; [ vm_compute; reflexivity | ].
  apply occurs_spec. vm_compute. reflexivity.
Qed.

(** C10 (amended): [generateAppContent] reads [state.user] and then
    [user.name].  When [user] is absent or is neither a mapping nor a
    sequence, rendering raises.  A render that succeeds has a [user] that is
    a mapping or a sequence, and its markup carries the greeting of
    [user.name]: [Hello!] when the name is absent, empty or otherwise falsy,
    and [Welcome, name!] for a non-empty name.  The initial state renders. *)
Theorem greeting_needs_user (state : value) :
  ((forall user, get state "user" = Some user ->
                 isMap user || isList user = false) ->
   generateAppContent state = None) /\
  (forall html,
     generateAppContent state = Some html ->
     exists user name,
       get state "user" = Some user /\
       isMap user || isList user = true /\
       get user "name" = Some name /\
       contains html (createGreeting name) /\
       (truthy name = false -> createGreeting name = helloGreeting) /\
       (name = VUndef \/ name = VStr "" -> createGreeting name = helloGreeting) /\
       (truthy name = true ->
        createGreeting name = welcomeGreeting (toString name)) /\
       (forall n, name = VStr n -> n <> "" ->
                  createGreeting name = welcomeGreeting n)) /\
  exists html, generateAppContent initialState = Some html.
Proof.
  split; [ | split ].
  - intros Huser.
    destruct (generateAppContent state) as [html | ] eqn:Hhtml; [ | reflexivity ].
    apply generateAppContent_inv in Hhtml
      as (user & rovers & gallery & darkMode & rc & gc & sj & name
          & Hu & _ & _ & _ & _ & _ & _ & Hname & _).
    specialize (Huser user Hu).
    destruct user; simpl in *; discriminate.
  - intros html Hhtml.
    apply generateAppContent_inv in Hhtml
      as (user & rovers & gallery & darkMode & rc & gc & sj & name
          & Hu & _ & _ & _ & _ & _ & _ & Hname & ->).
    exists user, name.
    split; [ exact Hu | ].
    split; [ destruct user; simpl in *; congruence | ].
    split; [ exact Hname | ].
    split; [ apply appMarkup_contains_greeting | ].
    split; [ | split; [ | split ] ].
    + intros Hf. unfold createGreeting. now rewrite Hf.
    + intros [-> | ->]; reflexivity.
    + intros Ht. unfold createGreeting. now rewrite Ht.
    + intros n -> Hn. unfold createGreeting. simpl.
      now destruct (String.eqb_spec n "").
  - eexists. vm_compute. reflexivity.
Qed.

Lemma greeting_needs_user_witness :
  generateAppContent (VMap [("isDarkMode", VBool false)]) = None /\
  exists html, generateAppContent initialState = Some html.
Proof.
  destruct (greeting_needs_user (VMap [("isDarkMode", VBool false)]))
    as (Hraise & _ & Hinit).
  split; [ | exact Hinit ].
  apply Hraise. intros user [= <-]. reflexivity.
Defined.

(** ** Selecting a rover *)

Lemma deepMerger_scalar (old v : value) :
  isMap v || isList v = false -> deepMerger old v = v.
Proof. destruct v; simpl; try discriminate; reflexivity. Qed.

Lemma deepMerger_onto_scalar (old v : value) :
  isMap old || isList old = false -> deepMerger old v = v.
Proof. destruct old; simpl; try discriminate; destruct v; reflexivity. Qed.

Lemma deepMerger_mapping (old : value) (p : list (string * value)) :
  exists m, deepMerger old (VMap p) = VMap m /\
            (isMap old = false -> m = p).
Proof.
  destruct old as [ | | b | n | s | c | xs];
    try (exists p; split; [ reflexivity | reflexivity ]).
  exists (mergeIntoKeyedWith p c). split; [ reflexivity | discriminate ].
Qed.

(** The state after the patch of [showRoverDetails], key by key. *)
Lemma lookup_loadingPatch (s : list (string * value)) (roverData : value) (k : string) :
  lookup_key k
    (mergeIntoKeyedWith
       [("selectedRoverGallery", VBool false); ("selectedRover", roverData)] s)
  = if String.eqb k "selectedRoverGallery" then Some (VBool false)
    else if String.eqb k "selectedRover"
         then Some (match lookup_key "selectedRover" s with
                    | None => roverData
                    | Some old => deepMerger old roverData
                    end)
         else lookup_key k s.
Proof.
  rewrite lookup_mergeIntoKeyedWith by reflexivity. simpl.
  destruct (String.eqb_spec k "selectedRoverGallery") as [-> | _].
  - now destruct (lookup_key "selectedRoverGallery" s).
  - destruct (String.eqb_spec k "selectedRover") as [-> | _]; reflexivity.
Qed.

Lemma lookup_loadingPatch_selectedRover (s : list (string * value)) (roverData : value) :
  lookup_key "selectedRover"
    (mergeIntoKeyedWith
       [("selectedRoverGallery", VBool false); ("selectedRover", roverData)] s)
  = Some (match lookup_key "selectedRover" s with
          | None => roverData
          | Some old => deepMerger old roverData
          end).
Proof. now rewrite lookup_loadingPatch. Qed.

Lemma lookup_loadingPatch_gallery (s : list (string * value)) (roverData : value) :
  lookup_key "selectedRoverGallery"
    (mergeIntoKeyedWith
       [("selectedRoverGallery", VBool false); ("selectedRover", roverData)] s)
  = Some (VBool false).
Proof. now rewrite lookup_loadingPatch. Qed.

Lemma well_formed_loadingPatch (s r : list (string * value)) :
  well_formed (VMap s) = true ->
  well_formed
    (VMap (mergeIntoKeyedWith
             [("selectedRoverGallery", VBool false); ("selectedRover", VMap r)] s))
  = true.
Proof.
  unfold well_formed, field. rewrite !lookup_loadingPatch.
  destruct (lookup_key "selectedRover" s) as [old | ];
    [ destruct (deepMerger_mapping old r) as (m & -> & _) | ];
    simpl; now intros [[[-> ->]%andb_prop _]%andb_prop _]%andb_prop.
Qed.

Lemma existsb_set_key (k0 k : string) (v : value) (m : list (string * value)) :
  existsb (String.eqb k0) (map fst (set_key k v m))
  = existsb (String.eqb k0) (map fst m) || String.eqb k0 k.
Proof.
  induction m as [ | [k1 v1] m IH]; simpl.
  - now rewrite orb_false_r.
  - destruct (String.eqb_spec k k1) as [-> | Hne]; simpl.
    + now destruct (String.eqb k0 k1), (existsb (String.eqb k0) (map fst m)).
    + rewrite IH. now rewrite orb_assoc.
Qed.

(** [set] keeps the keys of a map distinct. *)
Lemma distinct_set_key (k : string) (v : value) (m : list (string * value)) :
  distinct (map fst m) = true -> distinct (map fst (set_key k v m)) = true.
Proof.
  induction m as [ | [k1 v1] m IH]; simpl; [ reflexivity | ].
  intros [Hfresh Hd]%andb_prop.
  destruct (String.eqb_spec k k1) as [-> | Hne]; simpl.
  - now rewrite Hfresh, Hd.
  - rewrite (IH Hd), existsb_set_key.
    apply negb_true_iff in Hfresh. rewrite Hfresh. simpl.
    destruct (String.eqb_spec k1 k); [ congruence | reflexivity ].
Qed.

(** The fields of the rover that wins the merge: [loading] is [true] and
    every scalar field of the selected rover reads as in the rover. *)
Lemma lookup_selected (old : option value) (r : list (string * value)) :
  distinct (map fst r) = true ->
  exists sel,
    match old with
    | None => VMap (set_key "loading" (VBool true) r)
    | Some o => deepMerger o (VMap (set_key "loading" (VBool true) r))
    end = VMap sel /\
    lookup_key "loading" sel = Some (VBool true) /\
    (forall k v, lookup_key k r = Some v -> k <> "loading" ->
                 isMap v || isList v = false -> lookup_key k sel = Some v) /\
    (isMap (default VUndef old) = false ->
     sel = set_key "loading" (VBool true) r).
Proof.
  intros Hd.
  assert (Hscalars : forall k v, lookup_key k r = Some v -> k <> "loading" ->
            lookup_key k (set_key "loading" (VBool true) r) = Some v).
  { intros k v Hk Hne. rewrite lookup_set_key_ne by congruence. exact Hk. }
  destruct old as [[ | | b | n | s | c | xs] | ];
    try (exists (set_key "loading" (VBool true) r);
         split; [ reflexivity | ];
         split; [ apply lookup_set_key_eq | ];
         split; [ intros k v Hk Hne _; now apply Hscalars | reflexivity ]).
  exists (mergeIntoKeyedWith (set_key "loading" (VBool true) r) c).
  pose proof (distinct_set_key "loading" (VBool true) r Hd) as Hd'.
  split; [ reflexivity | ].
  split.
  { rewrite (lookup_mergeIntoKeyedWith _ Hd'), lookup_set_key_eq.
    now destruct (lookup_key "loading" c). }
  split; [ | discriminate ].
  intros k v Hk Hne Hv.
  rewrite (lookup_mergeIntoKeyedWith _ Hd'), (Hscalars k v Hk Hne).
  destruct (lookup_key k c); [ | reflexivity ].
  now rewrite deepMerger_scalar.
Qed.

Lemma updateApplicationState_rendered
  (element : page) (state newState updated : value) (html : string)
  (callback : option (page -> value -> page)) :
  mergeDeep state newState = Some updated ->
  generateAppContent updated = Some html ->
  updateApplicationState element state newState callback
  = let element' :=
      Page html (bsTheme element) (Some updated) (pending element) in
    match callback with
    | Some cb => cb element' updated
    | None => element'
    end.
Proof.
  intros Hm Hg. unfold updateApplicationState, renderUI. now rewrite Hm, Hg.
Qed.

Lemma fetchRoverData_request
  (element : page) (state selectedRover name max_date : value) :
  get state "selectedRover" = Some selectedRover ->
  get selectedRover "name" = Some name ->
  get selectedRover "max_date" = Some max_date ->
  fetchRoverData element state
  = Page (innerHTML element) (bsTheme element) (rendered element)
      (pending element ++ [RoverPhotos name max_date state]).
Proof.
  intros Hsel Hname Hdate. unfold fetchRoverData.
  now rewrite Hsel; simpl; rewrite Hname; simpl; rewrite Hdate.
Qed.

Lemma forallb_set_key (f : value -> bool) (k : string) (v : value)
  (m : list (string * value)) :
  f v = true ->
  forallb (fun kv => f (snd kv)) m = true ->
  forallb (fun kv => f (snd kv)) (set_key k v m) = true.
Proof.
  intros Hv. induction m as [ | [k1 v1] m IH]; simpl.
  - intros _. now rewrite Hv.
  - intros [H1 Hm]%andb_prop.
    destruct (String.eqb k k1); simpl.
    + now rewrite Hv, Hm.
    + now rewrite H1, (IH Hm).
Qed.

Lemma unique_keys_map (m : list (string * value)) :
  unique_keys (VMap m) = true <->
  distinct (map fst m) = true /\
  forallb (fun kv => unique_keys (snd kv)) m = true.
Proof. simpl. apply andb_true_iff. Qed.

Lemma unique_keys_set_key (k : string) (v : value) (m : list (string * value)) :
  unique_keys v = true ->
  unique_keys (VMap m) = true ->
  unique_keys (VMap (set_key k v m)) = true.
Proof.
  intros Hv [Hd Hvals]%unique_keys_map. apply unique_keys_map.
  split; [ now apply distinct_set_key | ].
  now apply (forallb_set_key unique_keys).
Qed.

(** The selection after the patch of [showRoverDetails]: the merger
    applied to the previous selection and the rover with its [loading]
    flag.  When a mapping was selected before, a field that the rover does
    not carry is kept and a sequence carried by both is the two sequences
    in a row. *)
Lemma selection_merged (previous : value) (r : list (string * value)) :
  unique_keys (VMap r) = true ->
  exists sel,
    deepMerger previous (VMap (set_key "loading" (VBool true) r)) = VMap sel /\
    deep_merge true previous (VMap (set_key "loading" (VBool true) r)) (VMap sel) /\
    lookup_key "loading" sel = Some (VBool true) /\
    (forall k v, lookup_key k r = Some v -> k <> "loading" ->
                 isMap v || isList v = false -> lookup_key k sel = Some v) /\
    (isMap previous = false -> sel = set_key "loading" (VBool true) r) /\
    (forall old, previous = VMap old ->
       (forall k, k <> "loading" -> lookup_key k r = None ->
                  lookup_key k sel = lookup_key k old) /\
       (forall k xs ys, k <> "loading" ->
          lookup_key k old = Some (VList xs) ->
          lookup_key k r = Some (VList ys) ->
          lookup_key k sel = Some (VList (xs ++ ys)))).
Proof.
  intros Hr.
  pose proof (unique_keys_set_key "loading" (VBool true) r eq_refl Hr) as Hr'.
  pose proof (deepMerger_deep_merge _ Hr' previous) as Hmerge.
  apply unique_keys_map in Hr as [Hd _].
  destruct (lookup_selected (Some previous) r Hd)
    as (sel & Hsel & Hloading & Hscalars & Hfresh).
  exists sel. rewrite Hsel in Hmerge.
  split; [ exact Hsel | ]. split; [ exact Hmerge | ].
  split; [ exact Hloading | ]. split; [ exact Hscalars | ].
  split; [ exact Hfresh | ].
  intros old ->. rewrite deepMerger_maps in Hsel. injection Hsel as <-.
  pose proof (distinct_set_key "loading" (VBool true) r Hd) as Hd'.
  split.
  - intros k Hk Hnone.
    rewrite (lookup_mergeIntoKeyedWith _ Hd'), lookup_set_key_ne by congruence.
    now rewrite Hnone.
  - intros k xs ys Hk Hold Hnew.
    rewrite (lookup_mergeIntoKeyedWith _ Hd'), lookup_set_key_ne by congruence.
    now rewrite Hnew, Hold.
Qed.

(** What [showRoverDetails] does on a well-formed state: the merged state
    is rendered and one fetch is issued, with the name and the date that
    the merged selection carries. *)
Lemma showRoverDetails_merged (element : page) (s r : list (string * value)) :
  well_formed (VMap s) = true ->
  exists s' sel html,
    showRoverDetails element (VMap s) (VMap r)
    = Page html (bsTheme element) (Some (VMap s'))
        (pending element
         ++ [RoverPhotos (field "name" sel) (field "max_date" sel) (VMap s')]) /\
    generateAppContent (VMap s') = Some html /\
    lookup_key "selectedRoverGallery" s' = Some (VBool false) /\
    lookup_key "selectedRover" s' = Some (VMap sel) /\
    (forall k, k <> "selectedRoverGallery" -> k <> "selectedRover" ->
               lookup_key k s' = lookup_key k s) /\
    deepMerger (field "selectedRover" s)
      (VMap (set_key "loading" (VBool true) r)) = VMap sel.
Proof.
  intros Hwf.
  set (r' := set_key "loading" (VBool true) r).
  set (s' := mergeIntoKeyedWith
               [("selectedRoverGallery", VBool false); ("selectedRover", VMap r')] s).
  pose proof (well_formed_loadingPatch s r' Hwf) as Hwf'.
  destruct (well_formed_renders _ Hwf') as [html Hhtml].
  destruct (deepMerger_mapping (field "selectedRover" s) r') as (sel & Hsel & _).
  assert (Hs'sel : lookup_key "selectedRover" s' = Some (VMap sel)).
  { unfold s'. rewrite lookup_loadingPatch_selectedRover, <- Hsel.
    unfold field. now destruct (lookup_key "selectedRover" s). }
  exists s', sel, html.
  split.
  { unfold showRoverDetails. cbn [set]. fold r'.
    rewrite (updateApplicationState_rendered _ _ _ (VMap s') html);
      [ | reflexivity | exact Hhtml ].
    cbv zeta.
    rewrite (fetchRoverData_request _ _ (VMap sel)
               (field "name" sel) (field "max_date" sel));
      [ reflexivity | | reflexivity | reflexivity ].
    unfold get, field. now rewrite Hs'sel. }
  split; [ exact Hhtml | ].
  split; [ apply lookup_loadingPatch_gallery | ].
  split; [ exact Hs'sel | ].
  split; [ | exact Hsel ].
  intros k Hk1 Hk2. unfold s'. rewrite lookup_loadingPatch.
  destruct (String.eqb_spec k "selectedRoverGallery"); [ contradiction | ].
  destruct (String.eqb_spec k "selectedRover"); [ contradiction | reflexivity ].
Qed.

(** C4, as stated, fails when a rover is already selected: the previous
    selection is deep-merged with the new rover, so a sequence-valued field
    accumulates.  Selecting Spirit (one camera) after Curiosity (two
    cameras) leaves three cameras in [selectedRover], which is therefore
    not Spirit extended with [loading]. *)
Lemma showRoverDetails_merges_previous_selection :
  exists s' sel',
    rendered
      (showRoverDetails emptyPage
         (VMap [("user", VMap [("name", VStr "Student")]);
                ("selectedRover",
                 VMap [("name", VStr "Curiosity");
                       ("max_date", VStr "2024-02-19");
                       ("cameras", VList [VStr "MAST"; VStr "NAVCAM"]);
                       ("loading", VBool false)])])
         (VMap [("name", VStr "Spirit"); ("max_date", VStr "2010-03-21");
                ("cameras", VList [VStr "PANCAM"])]))
    = Some (VMap s') /\
    lookup_key "selectedRover" s' = Some (VMap sel') /\
    lookup_key "cameras" sel'
    = Some (VList [VStr "MAST"; VStr "NAVCAM"; VStr "PANCAM"]) /\
    lookup_key "cameras" sel'
    <> lookup_key "cameras"
         (set_key "loading" (VBool true)
            [("name", VStr "Spirit"); ("max_date", VStr "2010-03-21");
             ("cameras", VList [VStr "PANCAM"])]) /\
    VMap sel'
    <> VMap (set_key "loading" (VBool true)
               [("name", VStr "Spirit"); ("max_date", VStr "2010-03-21");
                ("cameras", VList [VStr "PANCAM"])]).
Proof.
  eexists _, _.
  split; [ vm_compute; reflexivity | ].
  split; [ vm_compute; reflexivity | ].
  split; [ vm_compute; reflexivity | ].
  split; vm_compute; discriminate.
Qed.

(** What [showRoverDetails] does on a well-formed state. *)
Lemma showRoverDetails_spec
  (element : page) (s r : list (string * value)) (n d : string) :
  well_formed (VMap s) = true ->
  distinct (map fst r) = true ->
  lookup_key "name" r = Some (VStr n) ->
  lookup_key "max_date" r = Some (VStr d) ->
  exists s' sel' html,
    showRoverDetails element (VMap s) (VMap r)
    = Page html (bsTheme element) (Some (VMap s'))
        (pending element ++ [RoverPhotos (VStr n) (VStr d) (VMap s')]) /\
    generateAppContent (VMap s') = Some html /\
    well_formed (VMap s') = true /\
    lookup_key "selectedRoverGallery" s' = Some (VBool false) /\
    lookup_key "selectedRover" s' = Some (VMap sel') /\
    lookup_key "loading" sel' = Some (VBool true) /\
    (forall k v, lookup_key k r = Some v -> k <> "loading" ->
                 isMap v || isList v = false -> lookup_key k sel' = Some v) /\
    (isMap (field "selectedRover" s) = false ->
     sel' = set_key "loading" (VBool true) r) /\
    (forall k, k <> "selectedRoverGallery" -> k <> "selectedRover" ->
               lookup_key k s' = lookup_key k s).
Proof.
  intros Hwf Hd Hname Hdate.
  destruct (lookup_selected (lookup_key "selectedRover" s) r Hd)
    as (sel & Hsel & Hloading & Hscalars & Hfresh).
  set (r' := set_key "loading" (VBool true) r) in *.
  set (s' := mergeIntoKeyedWith
               [("selectedRoverGallery", VBool false); ("selectedRover", VMap r')] s).
  destruct (well_formed_renders (VMap s') (well_formed_loadingPatch s r' Hwf))
    as [html Hhtml].
  assert (Hs'sel : lookup_key "selectedRover" s' = Some (VMap sel)).
  { unfold s'. now rewrite lookup_loadingPatch_selectedRover, Hsel. }
  exists s', sel, html.
  split.
  { unfold showRoverDetails. cbn [set]. fold r'.
    rewrite (updateApplicationState_rendered _ _ _ (VMap s') html);
      [ | reflexivity | exact Hhtml ].
    cbv zeta.
    rewrite (fetchRoverData_request _ _ (VMap sel) (VStr n) (VStr d));
      [ reflexivity | | | ].
    - unfold get, field. now rewrite Hs'sel.
    - unfold get, field. now rewrite (Hscalars "name" (VStr n)).
    - unfold get, field. now rewrite (Hscalars "max_date" (VStr d)). }
  split; [ exact Hhtml | ].
  split; [ exact (well_formed_loadingPatch s r' Hwf) | ].
  split; [ apply lookup_loadingPatch_gallery | ].
  split; [ exact Hs'sel | ].
  split; [ exact Hloading | ].
  split; [ exact Hscalars | ].
  split.
  { intros Hnomap. apply Hfresh. exact Hnomap. }
  intros k Hk1 Hk2. unfold s'. rewrite lookup_loadingPatch.
  destruct (String.eqb_spec k "selectedRoverGallery"); [ contradiction | ].
  destruct (String.eqb_spec k "selectedRover"); [ contradiction | reflexivity ].
Qed.

(** C4 (amended): for every well-formed state and every rover R (a
    mapping), selecting R renders a state in which [selectedRoverGallery]
    is [false], every key other than the two of the patch is unchanged, and
    [selectedRover] is the deep merge of the previous selection with R
    extended with [loading = true]: [loading] is [true]; every scalar field
    of R reads as in R; where no mapping was selected before, the selection
    is exactly R extended with [loading = true]; where a mapping was
    selected before, each of its fields that R does not carry is kept and a
    sequence carried by both is the previous sequence followed by R's.
    Exactly one photo fetch is issued; its arguments are the name and the
    max_date of the merged selection, which are R's whenever R carries
    them as scalars. *)
Theorem showRoverDetails_loading
  (element : page) (s r : list (string * value)) :
  well_formed (VMap s) = true ->
  unique_keys (VMap r) = true ->
  exists s' sel' html,
    showRoverDetails element (VMap s) (VMap r)
    = Page html (bsTheme element) (Some (VMap s'))
        (pending element
         ++ [RoverPhotos (field "name" sel') (field "max_date" sel') (VMap s')]) /\
    generateAppContent (VMap s') = Some html /\
    lookup_key "selectedRoverGallery" s' = Some (VBool false) /\
    lookup_key "selectedRover" s' = Some (VMap sel') /\
    (forall k, k <> "selectedRoverGallery" -> k <> "selectedRover" ->
               lookup_key k s' = lookup_key k s) /\
    deep_merge true (field "selectedRover" s)
      (VMap (set_key "loading" (VBool true) r)) (VMap sel') /\
    lookup_key "loading" sel' = Some (VBool true) /\
    (forall k v, lookup_key k r = Some v -> k <> "loading" ->
                 isMap v || isList v = false -> lookup_key k sel' = Some v) /\
    (isMap (field "selectedRover" s) = false ->
     sel' = set_key "loading" (VBool true) r) /\
    (forall old, field "selectedRover" s = VMap old ->
       (forall k, k <> "loading" -> lookup_key k r = None ->
                  lookup_key k sel' = lookup_key k old) /\
       (forall k xs ys, k <> "loading" ->
          lookup_key k old = Some (VList xs) ->
          lookup_key k r = Some (VList ys) ->
          lookup_key k sel' = Some (VList (xs ++ ys)))).
Proof.
  intros Hwf Hr.
  destruct (showRoverDetails_merged element s r Hwf)
    as (s' & sel & html & E & Hhtml & Hgallery & Hsel & Hothers & Hmerged).
  destruct (selection_merged (field "selectedRover" s) r Hr)
    as (sel' & Hsel' & Hdeep & Hloading & Hscalars & Hfresh & Hprevious).
  rewrite Hmerged in Hsel'. injection Hsel' as ->.
  exists s', sel', html.
  split; [ exact E | ]. split; [ exact Hhtml | ]. split; [ exact Hgallery | ].
  split; [ exact Hsel | ]. split; [ exact Hothers | ]. split; [ exact Hdeep | ].
  split; [ exact Hloading | ]. split; [ exact Hscalars | ].
  split; [ exact Hfresh | exact Hprevious ].
Qed.

Lemma showRoverDetails_loading_witness :
  exists s' sel' html,
    showRoverDetails emptyPage
      (VMap [("user", VMap [("name", VStr "Student")]);
             ("selectedRover",
              VMap [("name", VStr "Curiosity"); ("max_date", VStr "2024-02-19");
                    ("total_photos", VNum 695670);
                    ("cameras", VList [VStr "MAST"; VStr "NAVCAM"]);
                    ("loading", VBool false)]);
             ("selectedRoverGallery", VMap [("photos", VList [])]);
             ("isDarkMode", VBool false)])
      (VMap [("name", VStr "Spirit"); ("max_date", VStr "2010-03-21");
             ("cameras", VList [VStr "PANCAM"])])
    = Page html None (Some (VMap s'))
        [RoverPhotos (VStr "Spirit") (VStr "2010-03-21") (VMap s')] /\
    generateAppContent (VMap s') = Some html /\
    lookup_key "selectedRoverGallery" s' = Some (VBool false) /\
    lookup_key "selectedRover" s' = Some (VMap sel') /\
    lookup_key "isDarkMode" s' = Some (VBool false) /\
    lookup_key "loading" sel' = Some (VBool true) /\
    lookup_key "name" sel' = Some (VStr "Spirit") /\
    lookup_key "total_photos" sel' = Some (VNum 695670) /\
    lookup_key "cameras" sel'
    = Some (VList [VStr "MAST"; VStr "NAVCAM"; VStr "PANCAM"]).
Proof.
  destruct (showRoverDetails_loading emptyPage
              [("user", VMap [("name", VStr "Student")]);
               ("selectedRover",
                VMap [("name", VStr "Curiosity"); ("max_date", VStr "2024-02-19");
                      ("total_photos", VNum 695670);
                      ("cameras", VList [VStr "MAST"; VStr "NAVCAM"]);
                      ("loading", VBool false)]);
               ("selectedRoverGallery", VMap [("photos", VList [])]);
               ("isDarkMode", VBool false)]
              [("name", VStr "Spirit"); ("max_date", VStr "2010-03-21");
               ("cameras", VList [VStr "PANCAM"])])
    as (s' & sel' & html & H1 & H2 & H3 & H4 & H5 & _ & H6 & H7 & _ & H8);
    [ reflexivity | reflexivity | ].
  destruct (H8 _ eq_refl) as [Hkept Hconcat].
  pose proof (H7 "name" (VStr "Spirit") eq_refl ltac:(discriminate) eq_refl)
    as Hname.
  pose proof (H7 "max_date" (VStr "2010-03-21") eq_refl ltac:(discriminate)
                eq_refl) as Hdate.
  exists s', sel', html.
  split.
  { rewrite H1. unfold field. rewrite Hname, Hdate. reflexivity. }
  split; [ exact H2 | ]. split; [ exact H3 | ]. split; [ exact H4 | ].
  split; [ now rewrite H5 | ].
  split; [ exact H6 | ]. split; [ exact Hname | ].
  split.
  - now rewrite (Hkept "total_photos").
  - exact (Hconcat "cameras" [VStr "MAST"; VStr "NAVCAM"] [VStr "PANCAM"]
             ltac:(discriminate) eq_refl eq_refl).
Defined.

(** ** A late response *)

(** C1, on the session [curiosityArrived]: Spirit is selected while the
    photos of Curiosity are in flight; once the response for Curiosity is
    processed, the rendered state has Curiosity selected again, with the
    gallery of Curiosity, and the request for Spirit is still in flight. *)
Theorem stale_response_overwrites_selection :
  selectedName (currentState spiritSelected) = Some (VStr "Spirit") /\
  length (pending spiritSelected) = 2 /\
  pending spiritSelected !! 0
  = Some (RoverPhotos (VStr "Curiosity") (VStr "2024-02-19")
            (currentState curiositySelected)) /\
  selectedName (currentState curiosityArrived) = Some (VStr "Curiosity") /\
  get (currentState curiosityArrived) "selectedRoverGallery"
  = Some curiosityPhotos /\
  pending curiosityArrived
  = [RoverPhotos (VStr "Spirit") (VStr "2010-03-21")
       (currentState spiritSelected)].
Proof. repeat split; vm_compute; reflexivity. Qed.

(** ** Inline serialisation *)

Lemma same_inline_text :
  is_photo quotedPhoto = true /\
  is_photo plainPhoto = true /\
  quotedPhoto <> plainPhoto /\
  convertToJSON quotedPhoto = Some "{'img_src':'a','earth_date':'b'}" /\
  convertToJSON plainPhoto = Some "{'img_src':'a','earth_date':'b'}".
Proof.
  split; [ reflexivity | ]. split; [ reflexivity | ].
  split; [ discriminate | ].
  split; vm_compute; reflexivity.
Qed.

(** C6, at two different photos: [convertToJSON] gives both the same text,
    so no reading of the embedded text can return each of them. *)
Theorem convertToJSON_not_injective :
  is_photo quotedPhoto = true /\
  is_photo plainPhoto = true /\
  quotedPhoto <> plainPhoto /\
  convertToJSON quotedPhoto = convertToJSON plainPhoto /\
  convertToJSON plainPhoto = Some "{'img_src':'a','earth_date':'b'}".
Proof.
  destruct same_inline_text as (Hq & Hp & Hne & Hjq & Hjp).
  split; [ exact Hq | ]. split; [ exact Hp | ]. split; [ exact Hne | ].
  split; [ now rewrite Hjq, Hjp | exact Hjp ].
Qed.

(** Hence the round trip through the inline action fails for some photo,
    whatever reads the embedded text back. *)
Lemma convertToJSON_no_round_trip (parse : string -> option value) :
  ~ (forall photo json,
       is_photo photo = true ->
       convertToJSON photo = Some json -> parse json = Some photo).
Proof.
  intros Hround.
  destruct same_inline_text as (Hq & Hp & Hne & Hjq & Hjp).
  pose proof (Hround _ _ Hq Hjq) as H1.
  pose proof (Hround _ _ Hp Hjp) as H2.
  rewrite H1 in H2. now injection H2.
Qed.

(** The state after the patch of the photo callback, key by key. *)
Lemma lookup_loadedPatch (s : list (string * value)) (data : value) (k : string) :
  lookup_key k
    (mergeIntoKeyedWith
       [("selectedRoverGallery", data);
        ("selectedRover", VMap [("loading", VBool false)])] s)
  = if String.eqb k "selectedRoverGallery"
    then Some (match lookup_key "selectedRoverGallery" s with
               | None => data
               | Some old => deepMerger old data
               end)
    else if String.eqb k "selectedRover"
         then Some (match lookup_key "selectedRover" s with
                    | None => VMap [("loading", VBool false)]
                    | Some old => deepMerger old (VMap [("loading", VBool false)])
                    end)
         else lookup_key k s.
Proof.
  rewrite lookup_mergeIntoKeyedWith by reflexivity.
  change (lookup_key k [("selectedRoverGallery", data);
                        ("selectedRover", VMap [("loading", VBool false)])])
    with (if String.eqb k "selectedRoverGallery" then Some data
          else if String.eqb k "selectedRover"
               then Some (VMap [("loading", VBool false)]) else None).
  destruct (String.eqb_spec k "selectedRoverGallery") as [-> | _];
    [ reflexivity | ].
  destruct (String.eqb_spec k "selectedRover") as [-> | _]; reflexivity.
Qed.

Lemma lookup_loading_false (sel : list (string * value)) (k : string) :
  lookup_key k (mergeIntoKeyedWith [("loading", VBool false)] sel)
  = if String.eqb k "loading" then Some (VBool false) else lookup_key k sel.
Proof.
  rewrite lookup_mergeIntoKeyedWith by reflexivity.
  change (lookup_key k [("loading", VBool false)])
    with (if String.eqb k "loading" then Some (VBool false) else None).
  destruct (String.eqb_spec k "loading") as [-> | _]; [ | reflexivity ].
  now destruct (lookup_key "loading" sel).
Qed.

(** The ordering defect in general: from a well-formed state with nothing
    in flight, selecting a rover A, then a rover B, and then receiving the
    photos of A leaves A selected, with the gallery of A. *)
Lemma late_response_restores_first_selection
  (element : page) (s a b : list (string * value)) (na da nb db : string)
  (data : value) :
  pending element = [] ->
  well_formed (VMap s) = true ->
  distinct (map fst a) = true -> distinct (map fst b) = true ->
  lookup_key "name" a = Some (VStr na) ->
  lookup_key "max_date" a = Some (VStr da) ->
  lookup_key "name" b = Some (VStr nb) ->
  lookup_key "max_date" b = Some (VStr db) ->
  is_gallery data = true ->
  let p1 := step element (RoverClick (VMap s) (VMap a)) in
  let p2 := step p1 (RoverClick (currentState p1) (VMap b)) in
  let p3 := step p2 (Response 0 data) in
  selectedName (currentState p2) = Some (VStr nb) /\
  selectedName (currentState p3) = Some (VStr na) /\
  get (currentState p3) "selectedRoverGallery" = Some data.
Proof.
  intros Hpending Hwf Hda Hdb Hna Hmda Hnb Hmdb Hdata p1 p2 p3.
  destruct (showRoverDetails_spec element s a na da Hwf Hda Hna Hmda)
    as (s1 & sel1 & html1 & Hp1 & _ & Hwf1 & Hg1 & Hsel1 & _ & Hsc1 & _ & Hk1).
  assert (Ep1 : p1 = Page html1 (bsTheme element) (Some (VMap s1))
                       [RoverPhotos (VStr na) (VStr da) (VMap s1)]).
  { unfold p1. simpl. rewrite Hp1, Hpending. reflexivity. }
  destruct (showRoverDetails_spec p1 s1 b nb db Hwf1 Hdb Hnb Hmdb)
    as (s2 & sel2 & html2 & Hp2 & _ & _ & _ & Hsel2 & _ & Hsc2 & _).
  assert (Ep2 : p2 = Page html2 (bsTheme element) (Some (VMap s2))
                       [RoverPhotos (VStr na) (VStr da) (VMap s1);
                        RoverPhotos (VStr nb) (VStr db) (VMap s2)]).
  { unfold p2.
    change (step p1 (RoverClick (currentState p1) (VMap b)))
      with (showRoverDetails p1 (currentState p1) (VMap b)).
    replace (currentState p1) with (VMap s1) by now rewrite Ep1.
    rewrite Hp2, Ep1. reflexivity. }
  split.
  { rewrite Ep2. unfold selectedName, currentState, get, field. simpl.
    rewrite Hsel2. simpl. now rewrite (Hsc2 "name" (VStr nb)). }
  set (sel3 := mergeIntoKeyedWith [("loading", VBool false)] sel1).
  assert (Hname3 : lookup_key "name" sel3 = Some (VStr na)).
  { unfold sel3. rewrite lookup_loading_false. simpl.
    now apply (Hsc1 "name" (VStr na)). }
  set (s3 := mergeIntoKeyedWith
               [("selectedRoverGallery", data);
                ("selectedRover", VMap [("loading", VBool false)])] s1).
  assert (Hmerge : mergeDeep (VMap s1) (loadedPatch data) = Some (VMap s3))
    by reflexivity.
  assert (Hsel3 : lookup_key "selectedRover" s3 = Some (VMap sel3)).
  { unfold s3. rewrite lookup_loadedPatch. simpl. now rewrite Hsel1. }
  assert (Hg3 : lookup_key "selectedRoverGallery" s3 = Some data).
  { unfold s3. rewrite lookup_loadedPatch. simpl. rewrite Hg1.
    now rewrite deepMerger_onto_scalar. }
  assert (Hwf3 : well_formed (VMap s3) = true).
  { revert Hwf1. unfold well_formed, field. rewrite Hsel3, Hg3.
    unfold s3. rewrite !lookup_loadedPatch. simpl.
    intros [[[-> ->]%andb_prop _]%andb_prop _]%andb_prop. simpl.
    destruct data; try discriminate. exact Hdata. }
  clearbody s3 sel3.
  destruct (well_formed_renders _ Hwf3) as [html3 Hhtml3].
  assert (Ep3 : p3 = Page html3 (bsTheme element) (Some (VMap s3))
                       [RoverPhotos (VStr nb) (VStr db) (VMap s2)]).
  { unfold p3. rewrite Ep2. simpl.
    now rewrite (updateApplicationState_rendered _ _ _ (VMap s3) html3). }
  rewrite Ep3. unfold selectedName, currentState, get, field. simpl.
  rewrite Hsel3, Hg3. simpl. unfold field. now rewrite Hname3.
Qed.

(** * Further properties of the client *)

(** ** The merge: keys and order of patches *)

Lemma lookup_mergeEntry_bound (c : list (string * value)) (k0 k : string) (v : value) :
  is_Some (lookup_key k (mergeEntry c k0 v))
  <-> is_Some (lookup_key k c) \/ k = k0.
Proof.
  destruct (String.eqb_spec k0 k) as [<- | Hne].
  - rewrite lookup_mergeEntry_eq. split; [ now right | intros _; eauto ].
  - rewrite lookup_mergeEntry_ne by exact Hne.
    split; [ now left | intros [H | ->]; [ exact H | contradiction ] ].
Qed.

Lemma lookup_cons_bound (k0 k : string) (v : value) (p : list (string * value)) :
  is_Some (lookup_key k ((k0, v) :: p)) <-> k = k0 \/ is_Some (lookup_key k p).
Proof.
  simpl. destruct (String.eqb_spec k k0) as [-> | Hne].
  - split; [ now left | intros _; eauto ].
  - split; [ now right | intros [-> | H]; [ contradiction | exact H ] ].
Qed.

(** X1: the merge never drops a key: a key is bound in the merged map
    exactly when it is bound in the current map or in the patch. *)
Theorem mergeDeep_keys (c p : list (string * value)) (k : string) :
  exists r,
    mergeDeep (VMap c) (VMap p) = Some (VMap r) /\
    (is_Some (lookup_key k r)
     <-> is_Some (lookup_key k c) \/ is_Some (lookup_key k p)).
Proof.
  exists (mergeIntoKeyedWith p c). split; [ reflexivity | ].
  revert c. induction p as [ | [k0 v] p IH]; intros c.
  - simpl. split; [ now left | intros [H | [x [=]]]; exact H ].
  - simpl mergeIntoKeyedWith.
    rewrite IH, lookup_mergeEntry_bound, lookup_cons_bound. tauto.
Qed.

Lemma unique_keys_mergeEntry (c : list (string * value)) (k : string) (v : value) :
  (forall old, unique_keys old = true -> unique_keys (deepMerger old v) = true) ->
  unique_keys v = true ->
  unique_keys (VMap c) = true ->
  unique_keys (VMap (mergeEntry c k v)) = true.
Proof.
  intros IHv Hv [Hd Hvals]%unique_keys_map.
  apply unique_keys_map. unfold mergeEntry.
  destruct (lookup_key k c) as [old | ] eqn:Hold.
  - split; [ now apply distinct_set_key | ].
    apply forallb_set_key; [ | exact Hvals ].
    apply IHv. exact (unique_keys_lookup _ _ _ Hvals Hold).
  - split; [ now apply distinct_set_key | ].
    now apply forallb_set_key.
Qed.

(** The association lists stay within the values the library can build:
    the merger never binds a key twice. *)
Lemma unique_keys_deepMerger (pat : value) :
  unique_keys pat = true ->
  forall cur, unique_keys cur = true -> unique_keys (deepMerger cur pat) = true.
Proof.
  induction pat as [ | | b | n | s | p IHp | ys _] using value_induction;
    intros Hpat cur Hcur; try reflexivity.
  - destruct cur as [ | | b | n | s | c | xs]; try exact Hpat.
    rewrite deepMerger_maps.
    apply unique_keys_map in Hpat as [_ Hvals].
    revert c Hcur. induction p as [ | [k v] p IHl]; intros c Hcur; [ exact Hcur | ].
    simpl in Hvals. apply andb_prop in Hvals as [Hv Hvals].
    inversion IHp as [ | ? ? IHv IHrest]; subst. simpl in IHv.
    simpl mergeIntoKeyedWith. apply (IHl IHrest Hvals).
    apply unique_keys_mergeEntry; [ | exact Hv | exact Hcur ].
    intros old Hold. now apply IHv.
  - destruct cur as [ | | b | n | s | c | xs]; try exact Hpat.
    simpl in *. rewrite forallb_app. now rewrite Hcur, Hpat.
Qed.

(** X3: patches with disjoint keys can be merged in either order: the two
    results bind every key to the same value. *)
Theorem mergeDeep_disjoint_patches_commute (c p1 p2 : list (string * value)) :
  distinct (map fst p1) = true ->
  distinct (map fst p2) = true ->
  (forall k, lookup_key k p1 = None \/ lookup_key k p2 = None) ->
  exists r12 r21,
    mergeDeep2 (VMap c) (VMap p1) (VMap p2) = Some (VMap r12) /\
    mergeDeep2 (VMap c) (VMap p2) (VMap p1) = Some (VMap r21) /\
    forall k, lookup_key k r12 = lookup_key k r21.
Proof.
  intros Hd1 Hd2 Hdisj.
  exists (mergeIntoKeyedWith p2 (mergeIntoKeyedWith p1 c)),
         (mergeIntoKeyedWith p1 (mergeIntoKeyedWith p2 c)).
  split; [ reflexivity | ]. split; [ reflexivity | ].
  intros k.
  rewrite !lookup_mergeIntoKeyedWith by assumption.
  destruct (Hdisj k) as [-> | ->]; now destruct (lookup_key k _).
Qed.

Lemma mergeDeep_disjoint_patches_commute_witness :
  exists r12 r21,
    mergeDeep2 initialState (VMap [("isDarkMode", VBool true)])
      (VMap [("rovers", VList [curiosity; spirit])]) = Some (VMap r12) /\
    mergeDeep2 initialState (VMap [("rovers", VList [curiosity; spirit])])
      (VMap [("isDarkMode", VBool true)]) = Some (VMap r21) /\
    forall k, lookup_key k r12 = lookup_key k r21.
Proof.
  apply (mergeDeep_disjoint_patches_commute
           [("user", VMap [("name", VStr "Student")]);
            ("selectedRover", VBool false);
            ("selectedRoverGallery", VBool false);
            ("isDarkMode", VBool false)]
           [("isDarkMode", VBool true)]
           [("rovers", VList [curiosity; spirit])]);
    [ reflexivity | reflexivity | ].
  intros k. simpl.
  destruct (String.eqb_spec k "isDarkMode") as [-> | _];
    [ right | left ]; reflexivity.
Defined.

(** ** The inline serialisation *)

Lemma has_char_concat (c : ascii) (sep : string) (l : list string) :
  has_char c sep = false ->
  forallb (fun s => negb (has_char c s)) l = true ->
  has_char c (String.concat sep l) = false.
Proof.
  intros Hsep. induction l as [ | x l IH]; [ reflexivity | ].
  simpl. intros [Hx Hl]%andb_prop. apply negb_true_iff in Hx.
  destruct l as [ | y l]; [ exact Hx | ].
  change (has_char c (x +:+ sep +:+ String.concat sep (y :: l)) = false).
  now rewrite !has_char_append, Hx, Hsep, (IH Hl).
Qed.

Lemma replace_char_back (from to : ascii) (s : string) :
  has_char to s = false ->
  replace_char to from (replace_char from to s) = s.
Proof.
  induction s as [ | x s IH]; [ reflexivity | ].
  simpl. intros [Hx Hs]%orb_false_elim. rewrite (IH Hs). f_equal.
  destruct (Ascii.eqb_spec x from) as [-> | Hne].
  - now rewrite Ascii.eqb_refl.
  - now rewrite Hx.
Qed.

(** X4: the inline serialisation never holds a double quote, so it cannot
    close the [onclick] attribute it is embedded in. *)
Theorem convertToJSON_no_double_quote (obj : value) (json : string) :
  convertToJSON obj = Some json -> has_char dquote json = false.
Proof.
  unfold convertToJSON. intros H.
  apply bind_Some in H as (text & _ & H). injection H as <-.
  now apply has_char_replace.
Qed.

Lemma convertToJSON_no_double_quote_witness :
  has_char dquote "{'img_src':'a','earth_date':'b'}" = false.
Proof.
  apply (convertToJSON_no_double_quote plainPhoto). vm_compute. reflexivity.
Defined.

Lemma has_char_escape_char (c : ascii) :
  Ascii.eqb c "'" = false -> has_char "'" (escape_char c) = false.
Proof.
  destruct c as [[ | ] [ | ] [ | ] [ | ] [ | ] [ | ] [ | ] [ | ]];
    vm_compute; intros H; (reflexivity || discriminate).
Qed.

Lemma has_char_escape (s : string) :
  has_char "'" s = false -> has_char "'" (escape s) = false.
Proof.
  induction s as [ | x s IH]; [ reflexivity | ].
  simpl. intros [Hx Hs]%orb_false_elim.
  now rewrite has_char_append, (has_char_escape_char x Hx), (IH Hs).
Qed.

Lemma has_char_quoteJSONString (s : string) :
  has_char "'" s = false -> has_char "'" (quoteJSONString s) = false.
Proof.
  intros Hs. unfold quoteJSONString. simpl.
  now rewrite has_char_append, (has_char_escape s Hs).
Qed.

Lemma has_char_uint (d : Decimal.uint) :
  has_char "'" (NilEmpty.string_of_uint d) = false.
Proof. induction d; simpl; auto. Qed.

Lemma has_char_decimal (n : Z) : has_char "'" (decimal n) = false.
Proof.
  unfold decimal, NilZero.string_of_int.
  destruct (Z.to_int n) as [d | d]; unfold NilZero.string_of_uint;
    destruct d; simpl; try reflexivity; apply has_char_uint.
Qed.

Lemma stringify_map (kvs : list (string * value)) :
  stringify (VMap kvs) = "{" +:+ String.concat "," (jsonMembers kvs) +:+ "}".
Proof. reflexivity. Qed.

Lemma jsonMembers_cons (k : string) (w : value) (kvs : list (string * value)) :
  w <> VUndef ->
  jsonMembers ((k, w) :: kvs)
  = (quoteJSONString k +:+ ":" +:+ stringify w) :: jsonMembers kvs.
Proof. destruct w; (contradiction || reflexivity). Qed.

Lemma stringify_list (xs : list value) :
  stringify (VList xs) = "[" +:+ String.concat "," (map stringify xs) +:+ "]".
Proof. reflexivity. Qed.

Lemma has_char_bracket (c : ascii) (opening body closing : string) :
  has_char c opening = false -> has_char c closing = false ->
  has_char c body = false ->
  has_char c (opening +:+ body +:+ closing) = false.
Proof. intros Ho Hc Hb. now rewrite !has_char_append, Ho, Hb, Hc. Qed.

(** The JSON text of a value without apostrophes has none either. *)
Lemma has_char_stringify (v : value) :
  apostrophe_free v = true -> has_char "'" (stringify v) = false.
Proof.
  induction v as [ | | b | n | s | kvs IH | xs IH] using value_induction;
    intros Hv.
  - reflexivity.
  - reflexivity.
  - now destruct b.
  - apply has_char_decimal.
  - apply has_char_quoteJSONString. simpl in Hv. now apply negb_true_iff.
  - rewrite stringify_map.
    apply has_char_bracket; [ reflexivity | reflexivity | ].
    apply has_char_concat; [ reflexivity | ].
    induction kvs as [ | [k w] kvs IHl]; [ reflexivity | ].
    simpl in Hv. apply andb_prop in Hv as [[Hk Hw]%andb_prop Hkvs].
    apply negb_true_iff in Hk.
    inversion IH as [ | ? ? IHw IHrest]; subst. simpl in IHw.
    specialize (IHl IHrest Hkvs). specialize (IHw Hw).
    assert (Hmember : negb (has_char "'"
                        (quoteJSONString k +:+ ":" +:+ stringify w)) = true).
    { apply negb_true_iff.
      now rewrite !has_char_append, (has_char_quoteJSONString k Hk), IHw. }
    assert (Hcase : w = VUndef \/ w <> VUndef)
      by (destruct w; (now left) || (right; discriminate)).
    destruct Hcase as [-> | Hdef]; [ exact IHl | ].
    rewrite (jsonMembers_cons k w kvs Hdef).
    change (negb (has_char "'" (quoteJSONString k +:+ ":" +:+ stringify w))
            && forallb (fun s => negb (has_char "'" s)) (jsonMembers kvs) = true).
    now rewrite Hmember, IHl.
  - rewrite stringify_list.
    apply has_char_bracket; [ reflexivity | reflexivity | ].
    apply has_char_concat; [ reflexivity | ].
    induction xs as [ | x xs IHl]; [ reflexivity | ].
    simpl in Hv. apply andb_prop in Hv as [Hx Hxs].
    inversion IH as [ | ? ? IHx IHrest]; subst.
    simpl. now rewrite (IHx Hx), (IHl IHrest Hxs).
Qed.

(** X5: for a value whose keys and strings hold no apostrophe, putting the
    double quotes back into the inline serialisation gives the JSON text of
    the value again: the quote replacement of [convertToJSON] loses nothing
    there. *)
Theorem convertToJSON_reversible (obj : value) (json : string) :
  apostrophe_free obj = true ->
  convertToJSON obj = Some json ->
  JSON_stringify obj = Some (replace_char "'" dquote json).
Proof.
  intros Hfree. unfold convertToJSON. intros H.
  apply bind_Some in H as (text & Htext & H). injection H as <-.
  rewrite replace_char_back; [ exact Htext | ].
  pose proof (has_char_stringify obj Hfree) as Hno.
  unfold JSON_stringify in Htext. destruct obj; try discriminate;
    injection Htext as <-; exact Hno.
Qed.

Lemma convertToJSON_reversible_witness :
  JSON_stringify plainPhoto
  = Some (replace_char "'" dquote "{'img_src':'a','earth_date':'b'}").
Proof.
  apply (convertToJSON_reversible plainPhoto); vm_compute; reflexivity.
Defined.

(** ** Exactly when the render raises *)

Lemma get_has_get (coll : value) (key : string) :
  has_get coll = true -> get coll key = Some (read coll key).
Proof. destruct coll; try discriminate; reflexivity. Qed.

Lemma get_without_get (coll : value) (key : string) :
  has_get coll = false -> get coll key = None.
Proof. destruct coll; try discriminate; reflexivity. Qed.

(** Goals and hypotheses of the shape [is_Some (Some _)], [is_Some None]. *)
Ltac some_none :=
  repeat match goal with
         | H : is_Some None |- _ => destruct H as [? [=]]
         | H : false = true |- _ => discriminate H
         | H : _ /\ _ |- _ => destruct H
         | |- is_Some (Some _) => eexists; reflexivity
         | |- true = true => reflexivity
         | |- _ /\ _ => split
         end.

Lemma get_optional_Some (x : value) (key : string) :
  is_Some (get_optional x key) <-> nullish x || has_get x = true.
Proof. destruct x; unfold has_get; simpl; split; intros H; some_none. Qed.

Lemma createPhotoCard_Some (photo : value) :
  is_Some (createPhotoCard photo) <-> photo_renders photo = true.
Proof.
  unfold photo_renders, createPhotoCard, photoCameraName, photoRoverName.
  destruct (has_get photo) eqn:Hget.
  - rewrite !(get_has_get photo) by exact Hget. simpl.
    rewrite andb_true_iff, <- (get_optional_Some _ "full_name"),
      <- (get_optional_Some _ "name").
    destruct (get_optional (read photo "camera") "full_name"); simpl;
      destruct (get_optional (read photo "rover") "name"); simpl;
      split; intros H; some_none.
  - rewrite (get_without_get photo "img_src" Hget). simpl.
    split; intros H; some_none.
Qed.

Lemma createRoverCard_Some (state rover : value) :
  has_get state = true ->
  (is_Some (createRoverCard state rover) <-> has_get rover = true).
Proof.
  intros Hstate. unfold createRoverCard.
  destruct (has_get rover) eqn:Hget.
  - destruct (convertToJSON_defined state) as [sj Hsj];
      [ now destruct state | ].
    destruct (convertToJSON_defined rover) as [rj Hrj];
      [ now destruct rover | ].
    rewrite Hsj, Hrj, !(get_has_get rover) by exact Hget.
    rewrite (get_has_get state) by exact Hstate. simpl.
    split; [ reflexivity | intros _ ].
    destruct (read state "selectedRover"); simpl; some_none.
  - rewrite (get_without_get rover "launch_date" Hget). simpl.
    split; intros H; some_none.
Qed.

Lemma mapM_Some_forallb {A B} (f : A -> option B) (ok : A -> bool) (xs : list A) :
  (forall x, is_Some (f x) <-> ok x = true) ->
  (is_Some (mapM f xs) <-> forallb ok xs = true).
Proof.
  intros Hf. rewrite mapM_is_Some. induction xs as [ | x xs IH]; simpl.
  - split; [ reflexivity | constructor ].
  - rewrite andb_true_iff, <- IH, <- Hf. split.
    + intros H. inversion H; subst. now split.
    + intros [Hx Hxs]. now constructor.
Qed.

Lemma map_join_Some (f : value -> option string) (ok : value -> bool)
  (coll : value) :
  (forall x, is_Some (f x) <-> ok x = true) ->
  (is_Some (map_join f coll) <-> all_elements ok coll = true).
Proof.
  intros Hf. unfold map_join, all_elements.
  destruct (elements coll) as [xs | ]; simpl.
  - rewrite <- (mapM_Some_forallb f ok xs Hf).
    destruct (mapM f xs); simpl; split; intros H; some_none.
  - split; intros H; some_none.
Qed.

Lemma roverCardsHtml_Some (state rovers : value) :
  has_get state = true ->
  (is_Some (roverCardsHtml state rovers) <-> rovers_render rovers = true).
Proof.
  intros Hstate. unfold roverCardsHtml, rovers_render.
  destruct (truthy rovers); simpl.
  - apply map_join_Some. intros x. now apply createRoverCard_Some.
  - split; intros H; some_none.
Qed.

Lemma galleryHtml_Some (gallery : value) :
  is_Some (galleryHtml gallery) <-> gallery_renders gallery = true.
Proof.
  unfold galleryHtml, gallery_renders.
  destruct (truthy gallery); simpl; [ | split; intros H; some_none ].
  destruct (has_get gallery) eqn:Hget; simpl.
  - rewrite (get_has_get gallery) by exact Hget. simpl.
    pose proof (map_join_Some createPhotoCard photo_renders
                  (read gallery "photos") createPhotoCard_Some) as Hcards.
    destruct (read gallery "photos"); simpl nullish; simpl orb;
      try (split; intros H; some_none; fail);
      rewrite <- Hcards;
      destruct (map_join createPhotoCard _); simpl;
      split; intros H; some_none.
  - rewrite (get_without_get gallery "photos" Hget). simpl.
    split; intros H; some_none.
Qed.

Lemma render_iff_renderable (state : value) :
  is_Some (generateAppContent state) <-> renderable state = true.
Proof.
  unfold renderable, generateAppContent.
  destruct (has_get state) eqn:Hstate; simpl.
  - rewrite !(get_has_get state) by exact Hstate. simpl.
    rewrite !andb_true_iff,
      <- (roverCardsHtml_Some state _ Hstate), <- galleryHtml_Some.
    destruct (convertToJSON_defined state) as [sj ->];
      [ now destruct state | ].
    destruct (roverCardsHtml state (read state "rovers")); simpl;
      [ | split; intros H; some_none ].
    destruct (galleryHtml (read state "selectedRoverGallery")); simpl;
      [ | split; intros H; some_none ].
    destruct (has_get (read state "user")) eqn:Huser.
    + rewrite (get_has_get _ "name" Huser). simpl.
      split; intros H; some_none.
    + rewrite (get_without_get _ "name" Huser). simpl.
      split; intros H; some_none.
  - rewrite (get_without_get state "user" Hstate). simpl.
    split; intros H; some_none.
Qed.

(** X6: the render raises in exactly these cases: the state or its [user]
    has no [get] method; [rovers] is truthy and is not a collection of
    values with a [get] method; the gallery is truthy and has no [get]
    method, or its [photos] is neither absent nor a collection of photos
    that each have a [get] method and a [camera] and [rover] that are
    absent or have one.  In every other case markup is produced. *)
Theorem generateAppContent_renderable (state : value) :
  (exists html, generateAppContent state = Some html)
  <-> renderable state = true.
Proof.
  exact (render_iff_renderable state).
Qed.

Lemma generateAppContent_renderable_witness :
  exists html, generateAppContent initialState = Some html.
Proof. apply (generateAppContent_renderable initialState). reflexivity. Defined.

(** ** Toggling the theme *)

Lemma lookup_patch1 (s : list (string * value)) (k0 k : string) (v : value) :
  lookup_key k (mergeIntoKeyedWith [(k0, v)] s)
  = if String.eqb k k0
    then Some (match lookup_key k0 s with
               | None => v
               | Some old => deepMerger old v
               end)
    else lookup_key k s.
Proof.
  rewrite lookup_mergeIntoKeyedWith by reflexivity.
  change (lookup_key k [(k0, v)]) with (if String.eqb k k0 then Some v else None).
  destruct (String.eqb_spec k k0) as [-> | _]; reflexivity.
Qed.

Lemma read_patch1_ne (s : list (string * value)) (k0 k : string) (v : value) :
  k <> k0 -> read (VMap (mergeIntoKeyedWith [(k0, v)] s)) k = field k s.
Proof.
  intros Hne. unfold read, get, field. rewrite lookup_patch1.
  now destruct (String.eqb_spec k k0).
Qed.

Lemma appMarkup_contains_main j l t g r c :
  contains (appMarkup j l t g r c) (mainOpening t).
Proof.
  unfold appMarkup, mainOpening. do 4 apply contains_later.
  change (markup [ ""; "        </button>"; "      </div>"; "    </header>";
                   "    <main class='container py-5 " ])
    with (markup [ ""; "        </button>"; "      </div>"; "    </header>";
                   "    " ]
          +:+ markup [ "<main class='container py-5 " ]).
  change (markup [ "'>"; "      <div class='alert alert-primary'>"; "        " ])
    with (markup [ "'>" ]
          +:+ markup [ ""; "      <div class='alert alert-primary'>"; "        " ]).
  rewrite !append_assoc. apply contains_later.
  rewrite <- !append_assoc. rewrite !append_assoc.
  eexists "", _. simpl. rewrite !append_assoc. reflexivity.
Qed.

Lemma appMarkup_contains_footer j l t g r c :
  contains (appMarkup j l t g r c) (footerOpening t).
Proof.
  unfold appMarkup, footerOpening. do 12 apply contains_later.
  change (markup [ "";
               "      </div>";
               "      <button id='scrollToTopBtn' title='Go to top' onclick='scrollToTop()'><i class='fa-solid fa-arrow-up'></i></button>";
               "    </main>";
               "    <footer class='py-3 text-center " ])
    with (markup [ "";
               "      </div>";
               "      <button id='scrollToTopBtn' title='Go to top' onclick='scrollToTop()'><i class='fa-solid fa-arrow-up'></i></button>";
               "    </main>";
               "    " ]
          +:+ markup [ "<footer class='py-3 text-center " ]).
  change (markup [ "'>";
               "      <div class='container'>";
               "        <p class='mb-0'>Â© 2024 Mars Rover Dashboard</p>";
               "      </div>";
               "    </footer>";
               "  " ])
    with (markup [ "'>" ]
          +:+ markup [ "";
               "      <div class='container'>";
               "        <p class='mb-0'>Â© 2024 Mars Rover Dashboard</p>";
               "      </div>";
               "    </footer>";
               "  " ]).
  rewrite !append_assoc. apply contains_later.
  eexists "", _. simpl. rewrite !append_assoc. reflexivity.
Qed.

Lemma well_formed_themePatch (s : list (string * value)) (b : bool) :
  well_formed (VMap s) = true ->
  well_formed (VMap (mergeIntoKeyedWith [("isDarkMode", VBool b)] s)) = true.
Proof. unfold well_formed, field. now rewrite !lookup_patch1. Qed.

(** What [toggleTheme] does on a well-formed state. *)
Lemma toggleTheme_spec (element : page) (s : list (string * value)) :
  well_formed (VMap s) = true ->
  exists s' html,
    toggleTheme element (VMap s)
    = Page html
        (Some (if truthy (field "isDarkMode" s) then "light" else "dark"))
        (Some (VMap s')) (pending element) /\
    generateAppContent (VMap s') = Some html /\
    well_formed (VMap s') = true /\
    s' = mergeIntoKeyedWith
           [("isDarkMode", VBool (negb (truthy (field "isDarkMode" s))))] s /\
    lookup_key "isDarkMode" s'
    = Some (VBool (negb (truthy (field "isDarkMode" s)))) /\
    (forall k, k <> "isDarkMode" -> lookup_key k s' = lookup_key k s) /\
    contains html
      (mainOpening (themeClassOf (negb (truthy (field "isDarkMode" s))))) /\
    contains html
      (footerOpening (themeClassOf (negb (truthy (field "isDarkMode" s))))).
Proof.
  intros Hwf.
  set (dark := truthy (field "isDarkMode" s)).
  set (s' := mergeIntoKeyedWith [("isDarkMode", VBool (negb dark))] s).
  pose proof (well_formed_themePatch s (negb dark) Hwf) as Hwf'.
  destruct (well_formed_renders (VMap s') Hwf') as [html Hhtml].
  assert (Hdark : lookup_key "isDarkMode" s' = Some (VBool (negb dark))).
  { unfold s'. rewrite lookup_patch1. simpl.
    now destruct (lookup_key "isDarkMode" s). }
  exists s', html.
  split.
  { unfold toggleTheme. cbn [get]. fold dark.
    now rewrite (updateApplicationState_rendered _ _ _ (VMap s') html). }
  split; [ exact Hhtml | ]. split; [ exact Hwf' | ].
  split; [ reflexivity | ]. split; [ exact Hdark | ].
  split.
  { intros k Hk. unfold s'. rewrite lookup_patch1.
    now destruct (String.eqb_spec k "isDarkMode"). }
  apply generateAppContent_inv in Hhtml
    as (user & rovers & gallery & darkMode & rc & gc & sj & name
        & _ & _ & _ & Hd & _ & _ & _ & _ & ->).
  unfold get, field in Hd. rewrite Hdark in Hd. injection Hd as <-.
  simpl truthy.
  replace (if negb dark then "dark-mode" else "light-mode")
    with (themeClassOf (negb dark)) by reflexivity.
  split; [ apply appMarkup_contains_main | apply appMarkup_contains_footer ].
Qed.

(** X7: toggling the theme of a well-formed state renders the state with
    [isDarkMode] negated and every other key unchanged; the main content
    and the footer of the new markup carry the class of the new mode, the
    theme attribute of the document is set to the new mode, and no fetch is
    issued. *)
Theorem toggleTheme_flips (element : page) (s : list (string * value)) :
  well_formed (VMap s) = true ->
  exists s' html,
    toggleTheme element (VMap s)
    = Page html
        (Some (if truthy (field "isDarkMode" s) then "light" else "dark"))
        (Some (VMap s')) (pending element) /\
    generateAppContent (VMap s') = Some html /\
    lookup_key "isDarkMode" s'
    = Some (VBool (negb (truthy (field "isDarkMode" s)))) /\
    (forall k, k <> "isDarkMode" -> lookup_key k s' = lookup_key k s) /\
    contains html
      (mainOpening (themeClassOf (negb (truthy (field "isDarkMode" s))))) /\
    contains html
      (footerOpening (themeClassOf (negb (truthy (field "isDarkMode" s))))).
Proof.
  intros Hwf.
  destruct (toggleTheme_spec element s Hwf)
    as (s' & html & H1 & H2 & _ & _ & H3).
  now exists s', html.
Qed.

Lemma toggleTheme_flips_witness :
  exists s' html,
    toggleTheme emptyPage initialState
    = Page html (Some "dark") (Some (VMap s')) [] /\
    lookup_key "isDarkMode" s' = Some (VBool true) /\
    contains html (mainOpening "dark-mode").
Proof.
  destruct (toggleTheme_flips emptyPage
              [("user", VMap [("name", VStr "Student")]);
               ("selectedRover", VBool false);
               ("selectedRoverGallery", VBool false);
               ("isDarkMode", VBool false)])
    as (s' & html & H1 & _ & H2 & _ & H3 & _); [ reflexivity | ].
  now exists s', html.
Defined.

Lemma set_key_same (k : string) (v : value) (m : list (string * value)) :
  lookup_key k m = Some v -> set_key k v m = m.
Proof.
  induction m as [ | [k1 v1] m IH]; simpl; [ discriminate | ].
  destruct (String.eqb_spec k k1) as [-> | Hne].
  - now intros [= ->].
  - intros H. now rewrite (IH H).
Qed.

Lemma set_key_twice (k : string) (v w : value) (m : list (string * value)) :
  is_Some (lookup_key k m) -> set_key k w (set_key k v m) = set_key k w m.
Proof.
  induction m as [ | [k1 v1] m IH]; simpl; [ intros [x [=]] | ].
  destruct (String.eqb_spec k k1) as [-> | Hne]; simpl.
  - now rewrite String.eqb_refl.
  - intros H. destruct (String.eqb_spec k k1); [ contradiction | ].
    now rewrite (IH H).
Qed.

Lemma mergeInto_flag (k : string) (b : bool) (old : value)
  (m : list (string * value)) :
  lookup_key k m = Some old ->
  mergeIntoKeyedWith [(k, VBool b)] m = set_key k (VBool b) m.
Proof. intros H. simpl. unfold mergeEntry. now rewrite H. Qed.

(** X8: two toggles in a row give back the snapshot they started from:
    when [isDarkMode] holds a boolean, toggling and toggling again from
    the rendered state renders the original state, with the theme
    attribute of the original mode. *)
Theorem toggleTheme_twice (element : page) (s : list (string * value)) (b : bool) :
  well_formed (VMap s) = true ->
  lookup_key "isDarkMode" s = Some (VBool b) ->
  exists html,
    toggleTheme (toggleTheme element (VMap s))
      (currentState (toggleTheme element (VMap s)))
    = Page html (Some (if b then "dark" else "light")) (Some (VMap s))
        (pending element) /\
    generateAppContent (VMap s) = Some html.
Proof.
  intros Hwf Hb.
  destruct (toggleTheme_spec element s Hwf)
    as (s1 & html1 & E1 & _ & Hwf1 & Hs1 & Hd1 & _).
  rewrite E1. unfold currentState. simpl rendered. simpl default.
  destruct (toggleTheme_spec
              (Page html1
                 (Some (if truthy (field "isDarkMode" s) then "light" else "dark"))
                 (Some (VMap s1)) (pending element)) s1 Hwf1)
    as (s2 & html2 & E2 & Hhtml2 & _ & Hs2 & _).
  assert (Es2 : s2 = s).
  { rewrite Hs2. unfold field at 1. rewrite Hd1. simpl truthy. simpl default.
    rewrite (mergeInto_flag _ _ _ _ Hd1). rewrite Hs1.
    unfold field. rewrite Hb. simpl truthy. simpl default.
    rewrite (mergeInto_flag _ _ _ _ Hb).
    rewrite set_key_twice by (rewrite Hb; eauto).
    rewrite negb_involutive. now apply set_key_same. }
  exists html2. rewrite E2, <- Es2. split; [ | exact Hhtml2 ].
  unfold field. rewrite Hd1. unfold field. rewrite Hb. simpl.
  now destruct b.
Qed.

Lemma toggleTheme_twice_witness :
  exists html,
    toggleTheme (toggleTheme emptyPage initialState)
      (currentState (toggleTheme emptyPage initialState))
    = Page html (Some "light") (Some initialState) [] /\
    generateAppContent initialState = Some html.
Proof.
  apply (toggleTheme_twice emptyPage
           [("user", VMap [("name", VStr "Student")]);
            ("selectedRover", VBool false);
            ("selectedRoverGallery", VBool false);
            ("isDarkMode", VBool false)] false); reflexivity.
Defined.

(** X9: on a state whose [user] has no [get] method the render of
    [toggleTheme] raises inside [updateApplicationState]: the markup and
    the rendered snapshot stay as they were, yet the theme attribute of the
    document is switched all the same. *)
Theorem toggleTheme_without_user (element : page) (s : list (string * value)) :
  has_get (field "user" s) = false ->
  toggleTheme element (VMap s)
  = Page (innerHTML element)
      (Some (if truthy (field "isDarkMode" s) then "light" else "dark"))
      (rendered element) (pending element).
Proof.
  intros Huser. unfold toggleTheme. cbn [get].
  unfold updateApplicationState, renderUI.
  change (mergeDeep (VMap s)
            (VMap [("isDarkMode", VBool (negb (truthy (field "isDarkMode" s))))]))
    with (Some (VMap (mergeIntoKeyedWith
                        [("isDarkMode",
                          VBool (negb (truthy (field "isDarkMode" s))))] s))).
  cbv iota beta.
  destruct (generateAppContent (VMap (mergeIntoKeyedWith _ s)))
    as [html | ] eqn:Hhtml; [ | reflexivity ].
  exfalso.
  assert (Hr : renderable
                 (VMap (mergeIntoKeyedWith
                          [("isDarkMode",
                            VBool (negb (truthy (field "isDarkMode" s))))] s))
               = true)
    by (apply render_iff_renderable; eauto).
  unfold renderable in Hr.
  rewrite (read_patch1_ne s "isDarkMode" "user") in Hr by discriminate.
  rewrite Huser in Hr. discriminate Hr.
Qed.

Lemma toggleTheme_without_user_witness :
  toggleTheme emptyPage (VMap [("isDarkMode", VBool false)])
  = Page "" (Some "dark") None [].
Proof.
  apply (toggleTheme_without_user emptyPage [("isDarkMode", VBool false)]).
  reflexivity.
Defined.

(** ** The rover list arrives *)

Lemma rovers_shape_merge (old v : value) :
  absent_or (sequence_of isMap) old = true ->
  absent_or (sequence_of isMap) v = true ->
  absent_or (sequence_of isMap) (deepMerger old v) = true.
Proof.
  destruct v as [ | | b | n | s | p | ys]; simpl; try discriminate;
    try (now destruct old).
  destruct old as [ | | b | n | s | c | xs]; simpl; try discriminate;
    try (intros _ H; exact H).
  intros Hxs Hys. now rewrite forallb_app, Hxs, Hys.
Qed.

Lemma well_formed_roversPatch (s : list (string * value)) (rovers : value) :
  well_formed (VMap s) = true ->
  absent_or (sequence_of isMap) rovers = true ->
  well_formed (VMap (mergeIntoKeyedWith [("rovers", rovers)] s)) = true.
Proof.
  unfold well_formed, field. rewrite !lookup_patch1.
  change (String.eqb "user" "rovers") with false.
  change (String.eqb "rovers" "rovers") with true.
  change (String.eqb "selectedRover" "rovers") with false.
  change (String.eqb "selectedRoverGallery" "rovers") with false.
  cbv iota.
  intros [[[Hu Hr]%andb_prop Hs]%andb_prop Hg]%andb_prop Hrovers.
  rewrite Hu, Hs, Hg, !andb_true_r. cbn [andb default].
  destruct (lookup_key "rovers" s) as [old | ]; cbn [default] in *;
    [ now apply rovers_shape_merge | exact Hrovers ].
Qed.

(** What the callback of the load handler does with a well-shaped list. *)
Lemma roverList_response_spec
  (element : page) (s d : list (string * value)) :
  well_formed (VMap s) = true ->
  absent_or (sequence_of isMap) (field "rovers" d) = true ->
  exists s' html,
    respond element (RoverList (VMap s)) (VMap d)
    = Page html (bsTheme element) (Some (VMap s')) (pending element) /\
    generateAppContent (VMap s') = Some html /\
    well_formed (VMap s') = true /\
    s' = mergeIntoKeyedWith [("rovers", field "rovers" d)] s.
Proof.
  intros Hwf Hrovers.
  set (s' := mergeIntoKeyedWith [("rovers", field "rovers" d)] s).
  pose proof (well_formed_roversPatch s _ Hwf Hrovers) as Hwf'.
  destruct (well_formed_renders _ Hwf') as [html Hhtml].
  exists s', html.
  split; [ | now repeat split ].
  unfold respond. cbn [property].
  now rewrite (updateApplicationState_rendered _ _ _ (VMap s') html).
Qed.



(** X11: a response without a [rovers] key keeps the loading placeholder:
    the state is rendered again with [rovers] bound to [undefined] and the
    rover section is the spinner; a response that is [null] raises in the
    callback and leaves the page as it was. *)
Theorem roverList_response_without_rovers
  (element : page) (s d : list (string * value)) :
  well_formed (VMap s) = true ->
  lookup_key "rovers" s = None ->
  lookup_key "rovers" d = None ->
  respond element (RoverList (VMap s)) VNull = element /\
  exists s' html stateJson label themeClass greeting galleryCards,
    respond element (RoverList (VMap s)) (VMap d)
    = Page html (bsTheme element) (Some (VMap s')) (pending element) /\
    lookup_key "rovers" s' = Some VUndef /\
    html = appMarkup stateJson label themeClass greeting
             showLoadingSpinner galleryCards /\
    contains html showLoadingSpinner.
Proof.
  intros Hwf Hs Hd. split; [ reflexivity | ].
  assert (Hfield : field "rovers" d = VUndef) by (unfold field; now rewrite Hd).
  destruct (roverList_response_spec element s d Hwf) as (s' & html & E & Hhtml & _ & Hs').
  { now rewrite Hfield. }
  rewrite Hfield in Hs'.
  assert (Hrovers : lookup_key "rovers" s' = Some VUndef).
  { rewrite Hs', lookup_patch1.
    change (String.eqb "rovers" "rovers") with true. cbv iota.
    now rewrite Hs. }
  apply generateAppContent_inv in Hhtml
    as (user & rovers & gallery & darkMode & rc & gc & sj & name
        & _ & Hr & _ & _ & Hrc & _ & _ & _ & ->).
  unfold get, field in Hr. rewrite Hrovers in Hr. injection Hr as <-.
  injection Hrc as <-.
  eexists s', _, _, _, _, _, _.
  split; [ exact E | ]. split; [ exact Hrovers | ].
  split; [ reflexivity | apply appMarkup_contains_rovers ].
Qed.

Lemma roverList_response_without_rovers_witness :
  respond emptyPage (RoverList initialState) VNull = emptyPage /\
  exists s' html,
    respond emptyPage (RoverList initialState)
      (VMap [("error", VStr "unavailable")])
    = Page html None (Some (VMap s')) [] /\
    contains html showLoadingSpinner.
Proof.
  destruct (roverList_response_without_rovers emptyPage
              [("user", VMap [("name", VStr "Student")]);
               ("selectedRover", VBool false);
               ("selectedRoverGallery", VBool false);
               ("isDarkMode", VBool false)]
              [("error", VStr "unavailable")])
    as (Hnull & s' & html & sj & l & t & g & gc & H1 & _ & _ & H2);
    [ reflexivity | reflexivity | reflexivity | ].
  split; [ exact Hnull | now exists s', html ].
Defined.

(** ** Rover cards while photos load *)

Lemma createRoverCard_label
  (m r sel : list (string * value)) (n2 : string) :
  lookup_key "selectedRover" m = Some (VMap sel) ->
  lookup_key "name" r = Some (VStr n2) ->
  exists stateJson roverJson,
    createRoverCard (VMap m) (VMap r)
    = Some (roverCardMarkup n2 (toString (field "launch_date" r))
              (toString (field "landing_date" r)) (toString (field "status" r))
              stateJson roverJson
              (if truthy (field "loading" sel)
                  && strict_eq (field "name" sel) (VStr n2)
               then loadingLabel else "View Latest Images")).
Proof.
  intros Hsel Hname. unfold createRoverCard.
  destruct (convertToJSON_defined (VMap m)) as [sj ->]; [ discriminate | ].
  destruct (convertToJSON_defined (VMap r)) as [rj ->]; [ discriminate | ].
  assert (G1 : get (VMap m) "selectedRover" = Some (VMap sel))
    by (unfold get, field; now rewrite Hsel).
  assert (G2 : get (VMap r) "name" = Some (VStr n2))
    by (unfold get, field; now rewrite Hname).
  exists sj, rj. rewrite G1, G2. reflexivity.
Qed.

(** X12: after a rover is selected, its card is the busy one: in the
    rendered state the card of a rover shows the loading label exactly
    when the rover has the name of the selected rover, and the label
    [View Latest Images] otherwise. *)
Theorem selected_rover_card_is_busy
  (element : page) (s r : list (string * value)) (n d : string) :
  well_formed (VMap s) = true ->
  distinct (map fst r) = true ->
  lookup_key "name" r = Some (VStr n) ->
  lookup_key "max_date" r = Some (VStr d) ->
  exists s',
    rendered (showRoverDetails element (VMap s) (VMap r)) = Some (VMap s') /\
    forall r2 n2,
      lookup_key "name" r2 = Some (VStr n2) ->
      exists stateJson roverJson,
        createRoverCard (VMap s') (VMap r2)
        = Some (roverCardMarkup n2 (toString (field "launch_date" r2))
                  (toString (field "landing_date" r2))
                  (toString (field "status" r2)) stateJson roverJson
                  (if String.eqb n n2
                   then loadingLabel else "View Latest Images")).
Proof.
  intros Hwf Hd Hname Hdate.
  destruct (showRoverDetails_spec element s r n d Hwf Hd Hname Hdate)
    as (s' & sel' & html & E & _ & _ & _ & Hsel & Hloading & Hscalars & _).
  exists s'. split; [ now rewrite E | ].
  intros r2 n2 Hn2.
  destruct (createRoverCard_label s' r2 sel' n2 Hsel Hn2) as (sj & rj & Hcard).
  exists sj, rj. rewrite Hcard. unfold field at 4 5.
  rewrite Hloading, (Hscalars "name" (VStr n) Hname) by (discriminate || reflexivity).
  reflexivity.
Qed.

Lemma selected_rover_card_is_busy_witness :
  exists s',
    rendered (showRoverDetails emptyPage initialState curiosity)
    = Some (VMap s') /\
    (exists stateJson roverJson,
       createRoverCard (VMap s') curiosity
       = Some (roverCardMarkup "Curiosity" "2011-11-26" "2012-08-06" "active"
                 stateJson roverJson loadingLabel)) /\
    (exists stateJson roverJson,
       createRoverCard (VMap s') spirit
       = Some (roverCardMarkup "Spirit" "2003-06-10" "2004-01-04" "complete"
                 stateJson roverJson "View Latest Images")).
Proof.
  destruct (selected_rover_card_is_busy emptyPage
              [("user", VMap [("name", VStr "Student")]);
               ("selectedRover", VBool false);
               ("selectedRoverGallery", VBool false);
               ("isDarkMode", VBool false)]
              [("name", VStr "Curiosity"); ("launch_date", VStr "2011-11-26");
               ("landing_date", VStr "2012-08-06"); ("status", VStr "active");
               ("max_date", VStr "2024-02-19")]
              "Curiosity" "2024-02-19")
    as (s' & Hs' & Hcards);
    [ reflexivity | reflexivity | reflexivity | reflexivity | ].
  exists s'. split; [ exact Hs' | ]. split.
  - apply (Hcards
             [("name", VStr "Curiosity"); ("launch_date", VStr "2011-11-26");
              ("landing_date", VStr "2012-08-06"); ("status", VStr "active");
              ("max_date", VStr "2024-02-19")] "Curiosity").
    reflexivity.
  - apply (Hcards
             [("name", VStr "Spirit"); ("launch_date", VStr "2003-06-10");
              ("landing_date", VStr "2004-01-04"); ("status", VStr "complete");
              ("max_date", VStr "2010-03-21")] "Spirit").
    reflexivity.
Defined.

(** ** Selecting: render first, then at most one fetch *)

Lemma deepMerger_has_get (old v : value) :
  has_get v = true -> has_get (deepMerger old v) = true.
Proof. destruct v; try discriminate; destruct old; reflexivity. Qed.

(** X13: the three cases of [showRoverDetails].  When the rover has no
    [set] method or the state is not a map, nothing is merged and the page
    stays as it was.  When the merged state does not render, the page
    stays as it was and no fetch is issued.  Otherwise the merged state is
    rendered and then exactly one photo fetch is issued, which carries the
    merged state and the name and max_date of its selection: no fetch
    without a render, no render without a fetch. *)
Theorem showRoverDetails_render_then_fetch (element : page) (state rover : value) :
  match roverData ← set rover "loading" (VBool true);
        mergeDeep state (loadingPatch roverData) with
  | None =>
      has_get rover && isMap state = false /\
      showRoverDetails element state rover = element
  | Some merged =>
      has_get rover && isMap state = true /\
      if renderable merged
      then exists html,
             generateAppContent merged = Some html /\
             showRoverDetails element state rover
             = Page html (bsTheme element) (Some merged)
                 (pending element
                  ++ [RoverPhotos (read (read merged "selectedRover") "name")
                        (read (read merged "selectedRover") "max_date")
                        merged])
      else generateAppContent merged = None /\
           showRoverDetails element state rover = element
  end.
Proof.
  unfold showRoverDetails.
  destruct (set rover "loading" (VBool true)) as [roverData | ] eqn:Hset;
    [ | destruct rover; try discriminate; now split ].
  assert (Hrover : has_get rover = true) by (now destruct rover).
  assert (Hdata : has_get roverData = true).
  { destruct rover; try discriminate; injection Hset as <-; reflexivity. }
  rewrite Hrover. cbn [mbind option_bind andb].
  destruct state as [ | | | | | s | ]; try (now split).
  set (s' := mergeIntoKeyedWith
               [("selectedRoverGallery", VBool false);
                ("selectedRover", roverData)] s).
  assert (Hmerge : mergeDeep (VMap s) (loadingPatch roverData) = Some (VMap s'))
    by reflexivity.
  rewrite Hmerge. split; [ reflexivity | ].
  pose proof (render_iff_renderable (VMap s')) as Hiff.
  destruct (generateAppContent (VMap s')) as [html | ] eqn:Hhtml.
  - rewrite (proj1 Hiff) by eauto.
    exists html. split; [ reflexivity | ].
    assert (Hsel : exists sel, lookup_key "selectedRover" s' = Some sel
                               /\ has_get sel = true).
    { unfold s'. rewrite lookup_loadingPatch_selectedRover.
      destruct (lookup_key "selectedRover" s) as [old | ]; eexists;
        (split; [ reflexivity | ]);
        [ now apply deepMerger_has_get | exact Hdata ]. }
    destruct Hsel as (sel & Hsel & Hget).
    assert (Hread : read (VMap s') "selectedRover" = sel).
    { unfold read, get, field. now rewrite Hsel. }
    rewrite Hread.
    rewrite (updateApplicationState_rendered _ _ _ (VMap s') html _ Hmerge Hhtml).
    cbv zeta.
    rewrite (fetchRoverData_request _ _ sel (read sel "name") (read sel "max_date"));
      [ reflexivity | | | ].
    + unfold get, field. now rewrite Hsel.
    + now apply get_has_get.
    + now apply get_has_get.
  - destruct (renderable (VMap s')) eqn:Hren.
    + destruct (proj2 Hiff eq_refl) as [html [=]].
    + split; [ reflexivity | ].
      unfold updateApplicationState, renderUI. now rewrite Hmerge, Hhtml.
Qed.

(** ** The photos arrive *)

Lemma well_formed_loadedPatch (s : list (string * value)) (data : value) :
  well_formed (VMap s) = true ->
  has_get (field "selectedRoverGallery" s) = false ->
  absent_false_or is_gallery data = true ->
  well_formed
    (VMap (mergeIntoKeyedWith
             [("selectedRoverGallery", data);
              ("selectedRover", VMap [("loading", VBool false)])] s)) = true.
Proof.
  unfold well_formed, field. rewrite !lookup_loadedPatch.
  change (String.eqb "user" "selectedRoverGallery") with false.
  change (String.eqb "user" "selectedRover") with false.
  change (String.eqb "rovers" "selectedRoverGallery") with false.
  change (String.eqb "rovers" "selectedRover") with false.
  change (String.eqb "selectedRover" "selectedRoverGallery") with false.
  change (String.eqb "selectedRover" "selectedRover") with true.
  change (String.eqb "selectedRoverGallery" "selectedRoverGallery") with true.
  cbv iota.
  intros [[[-> ->]%andb_prop _]%andb_prop _]%andb_prop Hold Hdata.
  cbn [andb default from_option id].
  assert (Hsel : absent_false_or isMap
                   match lookup_key "selectedRover" s with
                   | Some old => deepMerger old (VMap [("loading", VBool false)])
                   | None => VMap [("loading", VBool false)]
                   end = true).
  { destruct (lookup_key "selectedRover" s) as [old | ]; [ | reflexivity ].
    destruct (deepMerger_mapping old [("loading", VBool false)]) as (m & -> & _).
    reflexivity. }
  rewrite Hsel. cbn [andb].
  destruct (lookup_key "selectedRoverGallery" s) as [old | ];
    cbn [default from_option id] in *; [ | exact Hdata ].
  rewrite deepMerger_onto_scalar; [ exact Hdata | exact Hold ].
Qed.

(** What the callback of [fetchRoverData] does with a well-shaped answer. *)
Lemma photos_response_spec
  (element : page) (s : list (string * value)) (n d data : value) :
  well_formed (VMap s) = true ->
  has_get (field "selectedRoverGallery" s) = false ->
  absent_false_or is_gallery data = true ->
  exists s' html,
    respond element (RoverPhotos n d (VMap s)) data
    = Page html (bsTheme element) (Some (VMap s')) (pending element) /\
    generateAppContent (VMap s') = Some html /\
    well_formed (VMap s') = true /\
    s' = mergeIntoKeyedWith
           [("selectedRoverGallery", data);
            ("selectedRover", VMap [("loading", VBool false)])] s /\
    lookup_key "selectedRoverGallery" s' = Some data.
Proof.
  intros Hwf Hold Hdata.
  set (s' := mergeIntoKeyedWith
               [("selectedRoverGallery", data);
                ("selectedRover", VMap [("loading", VBool false)])] s).
  pose proof (well_formed_loadedPatch s data Hwf Hold Hdata) as Hwf'.
  destruct (well_formed_renders _ Hwf') as [html Hhtml].
  exists s', html.
  split.
  { unfold respond.
    now rewrite (updateApplicationState_rendered _ _ _ (VMap s') html). }
  split; [ exact Hhtml | ]. split; [ exact Hwf' | ]. split; [ reflexivity | ].
  unfold s'. rewrite lookup_loadedPatch.
  change (String.eqb "selectedRoverGallery" "selectedRoverGallery") with true.
  cbv iota. unfold field in Hold.
  destruct (lookup_key "selectedRoverGallery" s) as [old | ];
    [ | reflexivity ].
  now rewrite deepMerger_onto_scalar.
Qed.



(** ** Sessions keep the page consistent *)

Lemma forallb_lookup {A} (f : A -> bool) (l : list A) (i : nat) (x : A) :
  forallb f l = true -> l !! i = Some x -> f x = true.
Proof.
  revert i. induction l as [ | y l IH]; intros [ | i]; simpl;
    try discriminate.
  - intros [Hy _]%andb_prop [= <-]. exact Hy.
  - intros [_ Hl]%andb_prop. now apply IH.
Qed.

Lemma forallb_delete {A} (f : A -> bool) (l : list A) (i : nat) :
  forallb f l = true -> forallb f (delete i l) = true.
Proof.
  revert i. induction l as [ | y l IH]; intros [ | i]; simpl;
    try reflexivity.
  - now intros [_ Hl]%andb_prop.
  - intros [Hy Hl]%andb_prop. now rewrite Hy, (IH i Hl).
Qed.

Lemma well_formed_is_map (state : value) :
  well_formed state = true -> exists s, state = VMap s.
Proof. destruct state; try discriminate. eauto. Qed.

(** Selecting a rover that is a mapping, on a well-formed state. *)
Lemma showRoverDetails_well_formed
  (element : page) (s r : list (string * value)) :
  well_formed (VMap s) = true ->
  exists s' html name max_date,
    showRoverDetails element (VMap s) (VMap r)
    = Page html (bsTheme element) (Some (VMap s'))
        (pending element ++ [RoverPhotos name max_date (VMap s')]) /\
    generateAppContent (VMap s') = Some html /\
    well_formed (VMap s') = true /\
    lookup_key "selectedRoverGallery" s' = Some (VBool false) /\
    s' = mergeIntoKeyedWith
           [("selectedRoverGallery", VBool false);
            ("selectedRover", VMap (set_key "loading" (VBool true) r))] s.
Proof.
  intros Hwf.
  set (r' := set_key "loading" (VBool true) r).
  set (s' := mergeIntoKeyedWith
               [("selectedRoverGallery", VBool false); ("selectedRover", VMap r')] s).
  pose proof (well_formed_loadingPatch s r' Hwf) as Hwf'.
  destruct (well_formed_renders _ Hwf') as [html Hhtml].
  assert (Hsel : exists sel, lookup_key "selectedRover" s' = Some (VMap sel)).
  { unfold s'. rewrite lookup_loadingPatch_selectedRover.
    destruct (lookup_key "selectedRover" s) as [old | ]; [ | eauto ].
    destruct (deepMerger_mapping old r') as (m & -> & _). eauto. }
  destruct Hsel as (sel & Hsel).
  exists s', html, (field "name" sel), (field "max_date" sel).
  split; [ | split; [ exact Hhtml | split; [ exact Hwf' | split; [ | reflexivity ] ] ] ].
  - unfold showRoverDetails. cbn [set]. fold r'.
    rewrite (updateApplicationState_rendered _ _ _ (VMap s') html);
      [ | reflexivity | exact Hhtml ].
    cbv zeta.
    rewrite (fetchRoverData_request _ _ (VMap sel)
               (field "name" sel) (field "max_date" sel));
      [ reflexivity | | reflexivity | reflexivity ].
    unfold get, field. now rewrite Hsel.
  - apply lookup_loadingPatch_gallery.
Qed.

(** Every well-shaped event keeps the page consistent. *)
Lemma step_consistent (element : page) (e : event) :
  consistent element -> event_ok element e = true ->
  consistent (step element e).
Proof.
  intros [Hrendered Hpending] Hok.
  destruct e as [ | state | state rover | i data]; simpl in Hok.
  - (* the load *)
    destruct (well_formed_renders initialState eq_refl) as [html Hhtml].
    assert (E : step element PageLoad
                = Page html (bsTheme element) (Some initialState)
                    (pending element ++ [RoverList initialState])).
    { unfold step, renderUI. now rewrite Hhtml. }
    rewrite E. split; [ now split | ].
    cbn [pending]. rewrite forallb_app, Hpending. reflexivity.
  - (* the theme *)
    destruct (well_formed_is_map state Hok) as [s ->].
    destruct (toggleTheme_spec element s Hok)
      as (s' & html & E & Hhtml & Hwf' & _).
    unfold step. rewrite E. split; [ now split | exact Hpending ].
  - (* a rover *)
    apply andb_prop in Hok as [Hwf Hrover].
    destruct (well_formed_is_map state Hwf) as [s ->].
    destruct rover as [ | | | | | r | ]; try discriminate.
    destruct (showRoverDetails_well_formed element s r Hwf)
      as (s' & html & name & max_date & E & Hhtml & Hwf' & Hgallery & _).
    unfold step. rewrite E. split; [ now split | ].
    cbn [pending]. rewrite forallb_app, Hpending.
    cbn [forallb captured_ok andb].
    rewrite Hwf'. unfold read, get, field. now rewrite Hgallery.
  - (* an answer *)
    unfold step.
    destruct (pending element !! i) as [req | ] eqn:Hreq;
      [ | now split ].
    pose proof (forallb_lookup _ _ _ _ Hpending Hreq) as Hreq_ok.
    pose proof (forallb_delete captured_ok _ i Hpending) as Hrest.
    destruct req as [state | name max_date state]; simpl in Hreq_ok.
    + destruct (well_formed_is_map state Hreq_ok) as [s ->].
      destruct data as [ | | | | | d | ]; try discriminate.
      destruct (roverList_response_spec
                  (Page (innerHTML element) (bsTheme element)
                     (rendered element) (delete i (pending element)))
                  s d Hreq_ok Hok)
        as (s' & html & E & Hhtml & Hwf' & _).
      rewrite E. split; [ now split | exact Hrest ].
    + apply andb_prop in Hreq_ok as [Hwf Hnone].
      apply negb_true_iff in Hnone.
      destruct (well_formed_is_map state Hwf) as [s ->].
      destruct (photos_response_spec
                  (Page (innerHTML element) (bsTheme element)
                     (rendered element) (delete i (pending element)))
                  s name max_date data Hwf Hnone Hok)
        as (s' & html & E & Hhtml & Hwf' & _).
      rewrite E. split; [ now split | exact Hrest ].
Qed.

Lemma run_consistent (es : list event) :
  forall element,
    consistent element -> session_ok element es = true ->
    consistent (run element es).
Proof.
  induction es as [ | e es IH]; intros element Hc Hok; [ exact Hc | ].
  simpl in Hok. apply andb_prop in Hok as [He Hes].
  unfold run. simpl. apply IH; [ now apply step_consistent | exact Hes ].
Qed.

(** Every well-shaped event on a consistent page is rendered. *)
Lemma step_shows (element : page) (e : event) :
  consistent element -> event_ok element e = true -> shows element e.
Proof.
  intros [_ Hpending] Hok. unfold shows.
  destruct e as [ | state | state rover | i data]; simpl in Hok.
  - (* the load *)
    destruct (well_formed_renders initialState eq_refl) as [html Hhtml].
    assert (E : step element PageLoad
                = Page html (bsTheme element) (Some initialState)
                    (pending element ++ [RoverList initialState])).
    { unfold step, renderUI. now rewrite Hhtml. }
    cbn [shown]. rewrite E. now split.
  - (* the theme *)
    destruct (well_formed_is_map state Hok) as [s ->].
    destruct (toggleTheme_spec element s Hok)
      as (s' & html & E & Hhtml & _ & -> & _).
    cbn [shown step]. rewrite E. cbn [get mbind option_bind].
    split; [ reflexivity | exact Hhtml ].
  - (* a rover *)
    apply andb_prop in Hok as [Hwf Hrover].
    destruct (well_formed_is_map state Hwf) as [s ->].
    destruct rover as [ | | | | | r | ]; try discriminate.
    destruct (showRoverDetails_well_formed element s r Hwf)
      as (s' & html & name & max_date & E & Hhtml & _ & _ & ->).
    cbn [shown step]. rewrite E. cbn [set mbind option_bind].
    split; [ reflexivity | exact Hhtml ].
  - (* an answer *)
    cbn [shown step].
    destruct (pending element !! i) as [req | ] eqn:Hreq;
      [ | now split ].
    pose proof (forallb_lookup _ _ _ _ Hpending Hreq) as Hreq_ok.
    cbn [mbind option_bind].
    destruct req as [state | name max_date state]; simpl in Hreq_ok.
    + destruct (well_formed_is_map state Hreq_ok) as [s ->].
      destruct data as [ | | | | | d | ]; try discriminate.
      destruct (roverList_response_spec
                  (Page (innerHTML element) (bsTheme element)
                     (rendered element) (delete i (pending element)))
                  s d Hreq_ok Hok)
        as (s' & html & E & Hhtml & _ & ->).
      rewrite E. cbn [property mbind option_bind].
      split; [ reflexivity | exact Hhtml ].
    + apply andb_prop in Hreq_ok as [Hwf Hnone].
      apply negb_true_iff in Hnone.
      destruct (well_formed_is_map state Hwf) as [s ->].
      destruct (photos_response_spec
                  (Page (innerHTML element) (bsTheme element)
                     (rendered element) (delete i (pending element)))
                  s name max_date data Hwf Hnone Hok)
        as (s' & html & E & Hhtml & _ & -> & _).
      rewrite E. split; [ reflexivity | exact Hhtml ].
Qed.

Lemma session_ok_split (before : list event) (e : event) (after : list event) :
  forall element,
    session_ok element (before ++ e :: after) = true ->
    session_ok element before = true /\
    event_ok (run element before) e = true.
Proof.
  induction before as [ | e0 before IH]; intros element; simpl.
  - now intros [He _]%andb_prop.
  - intros [He0 Hrest]%andb_prop. rewrite He0. now apply IH.
Qed.

(** X15: in every session of well-shaped events, from the empty page, no
    render raises.  Every event of the session is rendered: after it the
    page remembers the state its handler merged (the load: the initial
    state; a click or an answer: the state it carries merged with the
    patch of the handler) and the markup of the root element is the render
    of that state; an answer to a request that is not in flight changes
    neither.  At the end the remembered snapshot and every snapshot in
    flight are well formed. *)
Theorem session_consistent (es : list event) :
  session_ok emptyPage es = true ->
  consistent (run emptyPage es) /\
  forall before e after,
    es = before ++ e :: after -> shows (run emptyPage before) e.
Proof.
  intros Hok.
  assert (Hempty : consistent emptyPage) by (split; [ exact I | reflexivity ]).
  split; [ now apply run_consistent | ].
  intros before e after ->.
  destruct (session_ok_split before e after emptyPage Hok) as [Hbefore He].
  apply step_shows; [ now apply run_consistent | exact He ].
Qed.

Lemma session_consistent_witness :
  consistent curiosityArrived /\
  rendered curiosityArrived
  = mergeDeep (currentState curiositySelected) (loadedPatch curiosityPhotos) /\
  generateAppContent
    (default VUndef
       (mergeDeep (currentState curiositySelected) (loadedPatch curiosityPhotos)))
  = Some (innerHTML curiosityArrived).
Proof.
  destruct (session_consistent
              [PageLoad;
               Response 0 (VMap [("rovers", VList [curiosity; spirit])]);
               RoverClick (currentState roversListed) curiosity;
               RoverClick (currentState curiositySelected) spirit;
               Response 0 curiosityPhotos]) as [Hc Hshows];
    [ vm_compute; reflexivity | ].
  split; [ exact Hc | ].
  exact (Hshows
           [PageLoad;
            Response 0 (VMap [("rovers", VList [curiosity; spirit])]);
            RoverClick (currentState roversListed) curiosity;
            RoverClick (currentState curiositySelected) spirit]
           (Response 0 curiosityPhotos) [] eq_refl).
Defined.

(** ** Two selections and their answers *)

(** X16: the answer to a superseded request wins.  From a well-formed
    state with nothing in flight, after rover A and then rover B are
    selected, B is the selected rover; when the photos of A then arrive,
    the page renders A as the selected rover again, with the gallery of A:
    the callback merges into the snapshot it captured, whatever has been
    rendered since. *)
Theorem late_response_overwrites
  (element : page) (s a b : list (string * value)) (na da nb db : string)
  (data : value) :
  pending element = [] ->
  well_formed (VMap s) = true ->
  distinct (map fst a) = true -> distinct (map fst b) = true ->
  lookup_key "name" a = Some (VStr na) ->
  lookup_key "max_date" a = Some (VStr da) ->
  lookup_key "name" b = Some (VStr nb) ->
  lookup_key "max_date" b = Some (VStr db) ->
  is_gallery data = true ->
  selectedName
    (currentState
       (run element [RoverClick (VMap s) (VMap a);
                     RoverClick
                       (currentState (step element (RoverClick (VMap s) (VMap a))))
                       (VMap b)]))
  = Some (VStr nb) /\
  selectedName
    (currentState
       (run element [RoverClick (VMap s) (VMap a);
                     RoverClick
                       (currentState (step element (RoverClick (VMap s) (VMap a))))
                       (VMap b);
                     Response 0 data]))
  = Some (VStr na) /\
  get (currentState
         (run element [RoverClick (VMap s) (VMap a);
                       RoverClick
                         (currentState (step element (RoverClick (VMap s) (VMap a))))
                         (VMap b);
                       Response 0 data]))
    "selectedRoverGallery"
  = Some data.
Proof.
  intros Hp Hwf Hda Hdb Hna Hmda Hnb Hmdb Hdata.
  exact (late_response_restores_first_selection element s a b na da nb db data
           Hp Hwf Hda Hdb Hna Hmda Hnb Hmdb Hdata).
Qed.

Lemma late_response_overwrites_witness :
  selectedName (currentState spiritSelected) = Some (VStr "Spirit") /\
  selectedName (currentState curiosityArrived) = Some (VStr "Curiosity") /\
  get (currentState curiosityArrived) "selectedRoverGallery"
  = Some curiosityPhotos.
Proof.
  apply (late_response_overwrites
           (Page (innerHTML roversListed) (bsTheme roversListed)
              (rendered roversListed) [])
           (match currentState roversListed with VMap s => s | _ => [] end)
           [("name", VStr "Curiosity"); ("launch_date", VStr "2011-11-26");
            ("landing_date", VStr "2012-08-06"); ("status", VStr "active");
            ("max_date", VStr "2024-02-19")]
           [("name", VStr "Spirit"); ("launch_date", VStr "2003-06-10");
            ("landing_date", VStr "2004-01-04"); ("status", VStr "complete");
            ("max_date", VStr "2010-03-21")]
           "Curiosity" "2024-02-19" "Spirit" "2010-03-21" curiosityPhotos);
    vm_compute; reflexivity.
Defined.

(** X17: when the answers arrive in the order of the selections, the page
    ends as expected: after A and B are selected and the photos of A and
    then of B arrive, B is the selected rover, its [loading] is [false],
    the gallery is the one of B, and nothing is in flight. *)
Theorem answers_in_order
  (element : page) (s a b : list (string * value)) (na da nb db : string)
  (dataA dataB : value) :
  pending element = [] ->
  well_formed (VMap s) = true ->
  distinct (map fst a) = true -> distinct (map fst b) = true ->
  lookup_key "name" a = Some (VStr na) ->
  lookup_key "max_date" a = Some (VStr da) ->
  lookup_key "name" b = Some (VStr nb) ->
  lookup_key "max_date" b = Some (VStr db) ->
  is_gallery dataA = true -> is_gallery dataB = true ->
  let p1 := step element (RoverClick (VMap s) (VMap a)) in
  let p2 := step p1 (RoverClick (currentState p1) (VMap b)) in
  let p3 := step p2 (Response 0 dataA) in
  let p4 := step p3 (Response 0 dataB) in
  selectedName (currentState p4) = Some (VStr nb) /\
  (selectedRover ← get (currentState p4) "selectedRover";
   get selectedRover "loading") = Some (VBool false) /\
  get (currentState p4) "selectedRoverGallery" = Some dataB /\
  pending p4 = [].
Proof.
  intros Hpending Hwf Hda Hdb Hna Hmda Hnb Hmdb HdataA HdataB p1 p2 p3 p4.
  assert (Hshape : forall data, is_gallery data = true ->
                                absent_false_or is_gallery data = true).
  { intros data H. destruct data; try discriminate. exact H. }
  destruct (showRoverDetails_spec element s a na da Hwf Hda Hna Hmda)
    as (s1 & sel1 & html1 & Hp1 & _ & Hwf1 & Hg1 & _).
  assert (Ep1 : p1 = Page html1 (bsTheme element) (Some (VMap s1))
                       [RoverPhotos (VStr na) (VStr da) (VMap s1)]).
  { unfold p1. simpl. rewrite Hp1, Hpending. reflexivity. }
  destruct (showRoverDetails_spec p1 s1 b nb db Hwf1 Hdb Hnb Hmdb)
    as (s2 & sel2 & html2 & Hp2 & _ & Hwf2 & Hg2 & Hsel2 & _ & Hsc2 & _).
  assert (Ep2 : p2 = Page html2 (bsTheme element) (Some (VMap s2))
                       [RoverPhotos (VStr na) (VStr da) (VMap s1);
                        RoverPhotos (VStr nb) (VStr db) (VMap s2)]).
  { unfold p2.
    change (step p1 (RoverClick (currentState p1) (VMap b)))
      with (showRoverDetails p1 (currentState p1) (VMap b)).
    replace (currentState p1) with (VMap s1) by now rewrite Ep1.
    rewrite Hp2, Ep1. reflexivity. }
  assert (Hnone : forall m, lookup_key "selectedRoverGallery" m = Some (VBool false) ->
                            has_get (field "selectedRoverGallery" m) = false).
  { intros m H. unfold field. now rewrite H. }
  destruct (photos_response_spec
              (Page html2 (bsTheme element) (Some (VMap s2))
                 [RoverPhotos (VStr nb) (VStr db) (VMap s2)])
              s1 (VStr na) (VStr da) dataA Hwf1 (Hnone _ Hg1) (Hshape _ HdataA))
    as (s3 & html3 & E3 & _).
  assert (Ep3 : p3 = Page html3 (bsTheme element) (Some (VMap s3))
                       [RoverPhotos (VStr nb) (VStr db) (VMap s2)]).
  { unfold p3. rewrite Ep2. exact E3. }
  destruct (photos_response_spec
              (Page html3 (bsTheme element) (Some (VMap s3)) [])
              s2 (VStr nb) (VStr db) dataB Hwf2 (Hnone _ Hg2) (Hshape _ HdataB))
    as (s4 & html4 & E4 & _ & _ & Hs4 & Hg4).
  assert (Ep4 : p4 = Page html4 (bsTheme element) (Some (VMap s4)) []).
  { unfold p4. rewrite Ep3. exact E4. }
  set (sel4 := mergeIntoKeyedWith [("loading", VBool false)] sel2).
  assert (Hsel4 : lookup_key "selectedRover" s4 = Some (VMap sel4)).
  { rewrite Hs4, lookup_loadedPatch.
    change (String.eqb "selectedRover" "selectedRoverGallery") with false.
    change (String.eqb "selectedRover" "selectedRover") with true.
    cbv iota. now rewrite Hsel2. }
  assert (Hname4 : lookup_key "name" sel4 = Some (VStr nb)).
  { unfold sel4. rewrite lookup_loading_false.
    change (String.eqb "name" "loading") with false. cbv iota.
    now apply (Hsc2 "name" (VStr nb)). }
  assert (Hloading4 : lookup_key "loading" sel4 = Some (VBool false)).
  { unfold sel4. now rewrite lookup_loading_false. }
  clearbody sel4.
  rewrite Ep4. unfold selectedName, currentState, get, field.
  cbn [rendered default from_option id pending mbind option_bind].
  rewrite Hsel4, Hg4. cbn [default from_option id mbind option_bind].
  now rewrite Hname4, Hloading4.
Qed.

Lemma answers_in_order_witness :
  selectedName
    (currentState
       (step curiosityArrived
          (Response 0 (VMap [("photos", VList [])]))))
  = Some (VStr "Spirit") /\
  pending (step curiosityArrived (Response 0 (VMap [("photos", VList [])])))
  = [].
Proof.
  destruct (answers_in_order
              (Page (innerHTML roversListed) (bsTheme roversListed)
                 (rendered roversListed) [])
              (match currentState roversListed with VMap s => s | _ => [] end)
              [("name", VStr "Curiosity"); ("launch_date", VStr "2011-11-26");
               ("landing_date", VStr "2012-08-06"); ("status", VStr "active");
               ("max_date", VStr "2024-02-19")]
              [("name", VStr "Spirit"); ("launch_date", VStr "2003-06-10");
               ("landing_date", VStr "2004-01-04"); ("status", VStr "complete");
               ("max_date", VStr "2010-03-21")]
              "Curiosity" "2024-02-19" "Spirit" "2010-03-21"
              curiosityPhotos (VMap [("photos", VList [])]))
    as (H1 & _ & _ & H2); try (vm_compute; reflexivity).
  split; [ exact H1 | exact H2 ].
Defined.

(** ** Selecting the selected rover again *)

Lemma lookup_own_entries (m : list (string * value)) :
  distinct (map fst m) = true ->
  Forall (fun kv => lookup_key (fst kv) m = Some (snd kv)) m.
Proof.
  induction m as [ | [k v] m IH]; [ constructor | ].
  simpl. intros [Hfresh Hd]%andb_prop. apply negb_true_iff in Hfresh.
  constructor; [ simpl; now rewrite String.eqb_refl | ].
  specialize (IH Hd). rewrite Forall_forall in *. intros [k1 v1] Hin. simpl.
  destruct (String.eqb_spec k1 k) as [-> | _]; [ | now apply (IH (k1, v1)) ].
  specialize (IH _ Hin). simpl in IH.
  rewrite (lookup_absent_existsb _ _ Hfresh) in IH. discriminate.
Qed.

(** Merging scalars that are already there changes nothing. *)
Lemma mergeInto_present (p c : list (string * value)) :
  Forall (fun kv => lookup_key (fst kv) c = Some (snd kv)
                    /\ has_get (snd kv) = false) p ->
  mergeIntoKeyedWith p c = c.
Proof.
  induction 1 as [ | [k v] p [Hk Hv] _ IH]; [ reflexivity | ].
  simpl in *. unfold mergeEntry. rewrite Hk.
  rewrite deepMerger_scalar by exact Hv.
  now rewrite (set_key_same _ _ _ Hk).
Qed.

Lemma mergeInto_idempotent (p c : list (string * value)) :
  distinct (map fst p) = true ->
  scalar_fields p = true ->
  mergeIntoKeyedWith p (mergeIntoKeyedWith p c) = mergeIntoKeyedWith p c.
Proof.
  intros Hd Hscalar. apply mergeInto_present.
  pose proof (lookup_own_entries p Hd) as Hown.
  unfold scalar_fields in Hscalar. rewrite forallb_forall in Hscalar.
  rewrite Forall_forall in *. intros [k v] Hin.
  specialize (Hown _ Hin). simpl in *.
  assert (Hv : has_get v = false).
  { apply negb_true_iff. apply (Hscalar (k, v)). now apply list_elem_of_In. }
  split; [ | exact Hv ].
  rewrite (lookup_mergeIntoKeyedWith p Hd), Hown.
  destruct (lookup_key k c); [ | reflexivity ].
  now rewrite deepMerger_scalar.
Qed.

Lemma mergeInto_self (r : list (string * value)) :
  distinct (map fst r) = true ->
  scalar_fields r = true ->
  mergeIntoKeyedWith r r = r.
Proof.
  intros Hd Hscalar. apply mergeInto_present.
  pose proof (lookup_own_entries r Hd) as Hown.
  unfold scalar_fields in Hscalar. rewrite forallb_forall in Hscalar.
  rewrite Forall_forall in *. intros kv Hin. split; [ now apply Hown | ].
  apply negb_true_iff. apply Hscalar. now apply list_elem_of_In.
Qed.

Lemma deepMerger_settled (old : value) (r : list (string * value)) :
  distinct (map fst r) = true ->
  scalar_fields r = true ->
  deepMerger (deepMerger old (VMap r)) (VMap r) = deepMerger old (VMap r).
Proof.
  intros Hd Hscalar.
  destruct old as [ | | b | n | s | c | xs];
    try (change (deepMerger (VMap r) (VMap r) = VMap r);
         rewrite deepMerger_maps; now rewrite mergeInto_self).
  rewrite !deepMerger_maps. now rewrite mergeInto_idempotent.
Qed.

Lemma loadingPatch_idempotent (s r : list (string * value)) :
  distinct (map fst r) = true ->
  scalar_fields r = true ->
  mergeIntoKeyedWith
    [("selectedRoverGallery", VBool false); ("selectedRover", VMap r)]
    (mergeIntoKeyedWith
       [("selectedRoverGallery", VBool false); ("selectedRover", VMap r)] s)
  = mergeIntoKeyedWith
      [("selectedRoverGallery", VBool false); ("selectedRover", VMap r)] s.
Proof.
  intros Hd Hscalar.
  set (s1 := mergeIntoKeyedWith
               [("selectedRoverGallery", VBool false); ("selectedRover", VMap r)] s).
  pose proof (lookup_loadingPatch_gallery s (VMap r)) as Hg. fold s1 in Hg.
  pose proof (lookup_loadingPatch_selectedRover s (VMap r)) as Hsel. fold s1 in Hsel.
  change (mergeEntry (mergeEntry s1 "selectedRoverGallery" (VBool false))
            "selectedRover" (VMap r) = s1).
  assert (E1 : mergeEntry s1 "selectedRoverGallery" (VBool false) = s1).
  { unfold mergeEntry. rewrite Hg. now apply set_key_same. }
  rewrite E1. unfold mergeEntry. rewrite Hsel. apply set_key_same.
  rewrite Hsel. f_equal.
  destruct (lookup_key "selectedRover" s) as [old | ].
  - symmetry. now apply deepMerger_settled.
  - rewrite deepMerger_maps. now rewrite mergeInto_self.
Qed.

(** X18: selecting the rover that is already selected is not recognised:
    for a rover with scalar fields, selecting it once more from the
    rendered state renders the very same snapshot and markup again and
    issues a second, identical photo fetch. *)
Theorem reselecting_refetches
  (element : page) (s r : list (string * value)) (n d : string) :
  well_formed (VMap s) = true ->
  distinct (map fst r) = true ->
  scalar_fields r = true ->
  lookup_key "name" r = Some (VStr n) ->
  lookup_key "max_date" r = Some (VStr d) ->
  exists state html,
    showRoverDetails element (VMap s) (VMap r)
    = Page html (bsTheme element) (Some state)
        (pending element ++ [RoverPhotos (VStr n) (VStr d) state]) /\
    showRoverDetails (showRoverDetails element (VMap s) (VMap r)) state (VMap r)
    = Page html (bsTheme element) (Some state)
        (pending element ++ [RoverPhotos (VStr n) (VStr d) state;
                             RoverPhotos (VStr n) (VStr d) state]).
Proof.
  intros Hwf Hd Hscalar Hname Hdate.
  set (r' := set_key "loading" (VBool true) r).
  assert (Hd' : distinct (map fst r') = true) by now apply distinct_set_key.
  assert (Hscalar' : scalar_fields r' = true)
    by (unfold scalar_fields, r';
        now apply (forallb_set_key (fun v => negb (has_get v)))).
  destruct (showRoverDetails_spec element s r n d Hwf Hd Hname Hdate)
    as (s1 & sel1 & html1 & E1 & Hhtml1 & Hwf1 & _).
  destruct (showRoverDetails_well_formed element s r Hwf)
    as (s1' & html1' & n1 & d1 & E1' & _ & _ & _ & Hs1').
  rewrite E1 in E1'. injection E1' as _ Es1 _. fold r' in Hs1'.
  exists (VMap s1), html1. split; [ exact E1 | ].
  destruct (showRoverDetails_spec
              (showRoverDetails element (VMap s) (VMap r)) s1 r n d
              Hwf1 Hd Hname Hdate)
    as (s2 & sel2 & html2 & E2 & Hhtml2 & _).
  destruct (showRoverDetails_well_formed
              (showRoverDetails element (VMap s) (VMap r)) s1 r Hwf1)
    as (s2' & html2' & n2 & d2 & E2' & _ & _ & _ & Hs2').
  rewrite E2 in E2'. injection E2' as _ Es2 _. fold r' in Hs2'.
  assert (Es : s2 = s1).
  { rewrite Es2, Hs2', Es1, Hs1'. now apply loadingPatch_idempotent. }
  rewrite E2, Es. rewrite Es in Hhtml2. rewrite Hhtml1 in Hhtml2.
  injection Hhtml2 as <-. rewrite E1. cbn [bsTheme pending].
  now rewrite <- app_assoc.
Qed.

Lemma reselecting_refetches_witness :
  exists state html,
    showRoverDetails emptyPage initialState curiosity
    = Page html None (Some state)
        [RoverPhotos (VStr "Curiosity") (VStr "2024-02-19") state] /\
    showRoverDetails (showRoverDetails emptyPage initialState curiosity)
      state curiosity
    = Page html None (Some state)
        [RoverPhotos (VStr "Curiosity") (VStr "2024-02-19") state;
         RoverPhotos (VStr "Curiosity") (VStr "2024-02-19") state].
Proof.
  apply (reselecting_refetches emptyPage
           [("user", VMap [("name", VStr "Student")]);
            ("selectedRover", VBool false);
            ("selectedRoverGallery", VBool false);
            ("isDarkMode", VBool false)]
           [("name", VStr "Curiosity"); ("launch_date", VStr "2011-11-26");
            ("landing_date", VStr "2012-08-06"); ("status", VStr "active");
            ("max_date", VStr "2024-02-19")]
           "Curiosity" "2024-02-19"); reflexivity.
Defined.

(** ** The routes of the server *)

(** X19: the two proxy routes of the server are never reached.  The
    catch-all route [app.get('*')] is registered before [/rovers] and
    [/rovers/:name] and matches every path, so a GET or HEAD request that
    no middleware ends is answered with the index page, whatever its path
    (the paths of the rover API included), and a request with another
    method finds no route at all. *)
Theorem proxy_routes_unreachable
  (ends : nat -> httpRequest -> bool) (matches : string -> string -> bool)
  (req : httpRequest) :
  (forall path, matches "*" path = true) ->
  dispatch ends matches app req <> HandledBy ProxyRovers /\
  dispatch ends matches app req <> HandledBy ProxyRoverPhotos /\
  ((forall n, ends n req = false) ->
   dispatch ends matches app req
   = if get_or_head (requestMethod req)
     then HandledBy SendIndexPage else NotFound).
Proof.
  intros Hstar. unfold app. simpl.
  rewrite (Hstar (requestPath req)), andb_true_r.
  repeat split.
  - destruct (ends 0 req), (ends 1 req), (ends 2 req), (ends 3 req),
      (get_or_head (requestMethod req)); discriminate.
  - destruct (ends 0 req), (ends 1 req), (ends 2 req), (ends 3 req),
      (get_or_head (requestMethod req)); discriminate.
  - intros Hpass. rewrite !Hpass.
    now destruct (get_or_head (requestMethod req)).
Qed.

Lemma proxy_routes_unreachable_witness :
  dispatch (fun _ _ => false)
    (fun pattern path => String.eqb pattern "*" || String.eqb pattern path)
    app (HttpRequest GET "/rovers")
  = HandledBy SendIndexPage.
Proof.
  destruct (proxy_routes_unreachable (fun _ _ => false)
              (fun pattern path => String.eqb pattern "*" || String.eqb pattern path)
              (HttpRequest GET "/rovers"))
    as (_ & _ & H); [ reflexivity | ].
  apply H. reflexivity.
Defined.
